(** * Quote calculator and intake form of Common Notary Apostille

    A shallow embedding of [src/app.js] (the current calculator with remote
    proceedings) and of the older calculator kept in [src/unnamed/part_001],
    followed by the properties of the pricing engine, the add-on exclusivity
    handler and the step validation.

    Conventions of the embedding.
    - A JavaScript number that holds a price is a rational [Q]: sums and
      products are exact and the rounding of IEEE doubles is left out, as in
      the pricing policy (full precision, two decimals at presentation
      only).  Amounts are compared with [==] ([Qeq]).
    - A text is the UTF-8 encoding of the script's string, one [ascii] per
      byte.
    - A number obtained from [parseInt] is [option Z]: [None] is NaN.
    - An object literal used as a lookup table is an association list in the
      order of the literal; only own properties are looked up.  For the
      member names that every object inherits ([JS.inheritedNames]) the
      script finds a function instead; a property that is stated for keys
      outside the price table assumes the keys are none of them
      ([JS.notInherited]).
    - The page is an explicit state: every handler is a function from the page
      before the event to the page after it. *)

From Stdlib Require Import ZArith QArith Lqa Lia Bool List.
From Stdlib Require Import Strings.String Strings.Ascii Numbers.DecimalString.
Import ListNotations.

Open Scope string_scope.
Open Scope Z_scope.

(* ================================================================== *)
(** ** JavaScript primitives used by the source *)

Module JS.

(** [StrWhiteSpaceChar], by the length of its UTF-8 encoding.  One byte:
    TAB, LF, VT, FF, CR and SPACE. *)
Definition isWhiteSpace (c : ascii) : bool :=
  let n := nat_of_ascii c in
  ((9 <=? n) && (n <=? 13))%nat || (n =? 32)%nat.

(** Two bytes: U+00A0 (C2 A0). *)
Definition isWhiteSpace2 (c1 c2 : ascii) : bool :=
  ((nat_of_ascii c1 =? 194) && (nat_of_ascii c2 =? 160))%nat.

(** Three bytes: U+1680 (E1 9A 80); U+2000 to U+200A, U+2028, U+2029 and
    U+202F (E2 80 80 to 8A, A8, A9, AF); U+205F (E2 81 9F); U+3000
    (E3 80 80); U+FEFF (EF BB BF). *)
Definition isWhiteSpace3 (c1 c2 c3 : ascii) : bool :=
  let n1 := nat_of_ascii c1 in
  let n2 := nat_of_ascii c2 in
  let n3 := nat_of_ascii c3 in
  ((n1 =? 225) && (n2 =? 154) && (n3 =? 128)
   || (n1 =? 226) && (n2 =? 128)
      && ((128 <=? n3) && (n3 <=? 138) || (n3 =? 168) || (n3 =? 169)
          || (n3 =? 175))
   || (n1 =? 226) && (n2 =? 129) && (n3 =? 159)
   || (n1 =? 227) && (n2 =? 128) && (n3 =? 128)
   || (n1 =? 239) && (n2 =? 187) && (n3 =? 191))%nat.

(** The text without its leading white space. *)
Fixpoint trimStart (s : string) : string :=
  match s with
  | String c1 r1 =>
      if isWhiteSpace c1 then trimStart r1
      else
        match r1 with
        | String c2 r2 =>
            if isWhiteSpace2 c1 c2 then trimStart r2
            else
              match r2 with
              | String c3 r3 =>
                  if isWhiteSpace3 c1 c2 c3 then trimStart r3 else s
              | EmptyString => s
              end
        | EmptyString => s
        end
  | EmptyString => s
  end.

(** Value of a character read as a digit of any radix up to 36. *)
Definition digitValue (c : ascii) : option Z :=
  let n := Z.of_nat (nat_of_ascii c) in
  if (48 <=? n) && (n <=? 57) then Some (n - 48)
  else if (97 <=? n) && (n <=? 122) then Some (n - 87)
  else if (65 <=? n) && (n <=? 90) then Some (n - 55)
  else None.

(** Longest prefix of radix-[R] digits, read as an integer; [None] when the
    prefix is empty.  [seen] records whether a digit has been consumed. *)
Fixpoint parseDigits (R : Z) (s : string) (acc : Z) (seen : bool) : option Z :=
  let stop := if seen then Some acc else None in
  match s with
  | String c r =>
      match digitValue c with
      | Some d => if d <? R then parseDigits R r (acc * R + d) true else stop
      | None => stop
      end
  | EmptyString => stop
  end.

(** [parseInt(string)] with no radix argument: leading white space, an
    optional sign, an optional [0x]/[0X] prefix selecting radix 16, then
    the longest run of digits.  [None] is NaN. *)
Definition parseInt (s : string) : option Z :=
  let S1 := trimStart s in
  let '(sign, S2) :=
    match S1 with
    | String "-"%char r => (-1, r)
    | String "+"%char r => (1, r)
    | _ => (1, S1)
    end in
  let '(R, S3) :=
    match S2 with
    | String "0"%char (String "x"%char r) => (16, r)
    | String "0"%char (String "X"%char r) => (16, r)
    | _ => (10, S2)
    end in
  option_map (Z.mul sign) (parseDigits R S3 0 false).

(** [parseInt(x) || d]: NaN and 0 are falsy. *)
Definition intOr (x : option Z) (d : Z) : Z :=
  match x with
  | Some 0 => d
  | Some n => n
  | None => d
  end.

(** [s || d] on strings: the empty string is falsy. *)
Definition strOr (s d : string) : string :=
  if String.eqb s "" then d else s.

(** The member names that an object literal inherits from
    [Object.prototype]. *)
Definition inheritedNames : list string :=
  ["constructor"; "__defineGetter__"; "__defineSetter__"; "hasOwnProperty";
   "__lookupGetter__"; "__lookupSetter__"; "isPrototypeOf";
   "propertyIsEnumerable"; "toString"; "valueOf"; "__proto__";
   "toLocaleString"].

(** The key is none of the inherited member names, so that [table[key]] is
    decided by the literal alone. *)
Definition notInherited (key : string) : bool :=
  negb (existsb (String.eqb key) inheritedNames).

(** [table[key]] among the own properties of the literal: [None] is
    [undefined].  This is the value the script reads for every key that is
    [notInherited]; for an inherited name the script reads a function. *)
Fixpoint lookup {A : Type} (key : string) (table : list (string * A)) : option A :=
  match table with
  | [] => None
  | (k, v) :: rest => if String.eqb key k then Some v else lookup key rest
  end.

(** Truthiness of a looked-up price: [undefined] and 0 are falsy. *)
Definition truthy (x : option Q) : bool :=
  match x with
  | Some q => negb (Qeq_bool q 0)
  | None => false
  end.

(** [table[key] || 0] on prices. *)
Definition numOr0 (x : option Q) : Q :=
  match x with
  | Some q => if truthy x then q else 0%Q
  | None => 0%Q
  end.

(** The text of a template placeholder [${n}] for an integer [n]. *)
Definition toString (n : Z) : string :=
  NilZero.string_of_int (Z.to_int n).

(** [a === b] between a number that may be NaN and an integer literal. *)
Definition strictEq (a : option Z) (b : Z) : bool :=
  match a with
  | Some n => n =? b
  | None => false
  end.

End JS.

(* ================================================================== *)
(** ** The price table [PRICING] of [src/app.js]

    Groups read by a fixed property name are records; groups indexed by a
    value coming from the page ([PRICING.apostille[region]] and the like) are
    association lists.  The [max] entries of [poa] and [trust] are never read
    by the calculator. *)

Module PRICING.

Definition apostille : list (string * Q) :=
  [("nj", 447%Q); ("dmv", 397%Q); ("tn", 347%Q); ("swva", 297%Q);
   ("federal", 497%Q)].

Record notarization := { base : Q; max : option Q; perDoc : Q }.

Definition poa := {| base := 115; max := Some 150%Q; perDoc := 25 |}.
Definition trust := {| base := 125; max := Some 175%Q; perDoc := 35 |}.
Definition loan := {| base := 80; max := None; perDoc := 15 |}.
Definition hospital := {| base := 100; max := None; perDoc := 25 |}.

Module remote.
Definition base : Q := 649.
Definition overagePerHour : Q := 150.
Definition overagePerHalfHour : Q := 75.
End remote.

Module recording.
Definition audio : Q := 149.
Definition audio_video : Q := 199.
Definition timestamp : Q := 49.
Definition same_day_delivery : Q := 75.
Definition delivery_24hr : Q := 45.
Definition archive_monthly : Q := 25.
Definition archive_yearly : Q := 99.
End recording.

Definition complexity : list (string * Q) :=
  [("heavy_exhibits", 99%Q); ("multi_party", 75%Q); ("interpreter", 75%Q);
   ("second_tech", 199%Q)].

Definition remoteUrgency : list (string * Q) :=
  [("rush_booking", 125%Q); ("same_day_booking", 199%Q);
   ("after_hours", 150%Q); ("weekend_holiday", 199%Q)].

Module certified_reporter.
Definition coordination : Q := 125.
End certified_reporter.

Module recording_only.
Definition base : Q := 0.
End recording_only.

Definition urgency : list (string * Q) :=
  [("standard", 0%Q); ("expedited", 75%Q); ("rush", 150%Q)].

Definition delivery : list (string * Q) :=
  [("pickup", 0%Q); ("standard_mail", 15%Q); ("express", 35%Q);
   ("international", 75%Q)].

Definition location : list (string * Q) :=
  [("office", 0%Q); ("mobile", 25%Q); ("hospital", 25%Q)].

Definition additionalDocDiscount : Q := 15 # 100.

End PRICING.

(* ================================================================== *)
(** ** The page: form controls, quote lines, step tracker

    The markup of the page is not part of the sources, so the controls it
    declares are the fields of the state below and their attributes are
    arbitrary. *)

Module DOM.

(** A checkbox or radio input of a named group. *)
Record checkbox := { cb_value : string; cb_checked : bool }.

(** A form control that [validateCurrentStep] may visit.  [step] is the
    [data-step] of the [.form-step] that contains it, [hidden] is
    [offsetParent === null], [error] is membership of the class [error]. *)
Record element := {
  value : string;
  required : bool;
  hidden : bool;
  step : Z;
  error : bool
}.

Definition set_value (v : string) (e : element) : element :=
  {| value := v; required := required e; hidden := hidden e;
     step := step e; error := error e |}.

(** [field.classList.add('error')] *)
Definition addError (e : element) : element :=
  {| value := value e; required := required e; hidden := hidden e;
     step := step e; error := true |}.

(** The text of a [.quote-value]: either the result of [formatCurrency] on
    an amount (the amount is kept exact, the two-decimal rendering is the
    platform's), or a literal text. *)
Inductive text :=
| Currency (amount : Q)
| Plain (s : string).

(** A line of the quote summary: [style.display], the [.quote-label] and
    the [.quote-value]. *)
Record line := { display : string; label : string; content : text }.

Record Controls := {
  serviceTypeSelect : element;
  regionSelect : element;
  locationTypeSelect : element;
  numDocumentsInput : element;
  sessionHoursSelect : option element;
  urgencyRadios : list checkbox;
  deliveryRadios : list checkbox;
  addonsBoxes : list checkbox;
  remoteUrgencyBoxes : list checkbox;
  otherFields : list element
}.

Record QuoteDom := {
  baseServiceLine : line;
  documentsLine : line;
  sessionOverageLine : line;
  recordingLine : line;
  complexityLine : line;
  urgencyLine : line;
  bookingUrgencyLine : line;
  deliveryLine : line;
  locationLine : line;
  totalPriceEl : text
}.

(** [formSteps] lists the [data-step] of the [.form-step] elements;
    [currentStep] is the script's step tracker ([None] is NaN);
    [notification] is the message and type last passed to
    [showNotification], if any. *)
Record Page := {
  controls : Controls;
  quoteDom : QuoteDom;
  formSteps : list Z;
  currentStep : option Z;
  notification : option (string * string)
}.

Definition set_controls (c : Controls) (p : Page) : Page :=
  {| controls := c; quoteDom := quoteDom p; formSteps := formSteps p;
     currentStep := currentStep p; notification := notification p |}.

Definition set_quoteDom (d : QuoteDom) (p : Page) : Page :=
  {| controls := controls p; quoteDom := d; formSteps := formSteps p;
     currentStep := currentStep p; notification := notification p |}.

Definition set_currentStep (n : option Z) (p : Page) : Page :=
  {| controls := controls p; quoteDom := quoteDom p; formSteps := formSteps p;
     currentStep := n; notification := notification p |}.

Definition set_notification (m : option (string * string)) (p : Page) : Page :=
  {| controls := controls p; quoteDom := quoteDom p; formSteps := formSteps p;
     currentStep := currentStep p; notification := m |}.

Definition set_regionSelect (e : element) (c : Controls) : Controls :=
  {| serviceTypeSelect := serviceTypeSelect c; regionSelect := e;
     locationTypeSelect := locationTypeSelect c;
     numDocumentsInput := numDocumentsInput c;
     sessionHoursSelect := sessionHoursSelect c;
     urgencyRadios := urgencyRadios c; deliveryRadios := deliveryRadios c;
     addonsBoxes := addonsBoxes c;
     remoteUrgencyBoxes := remoteUrgencyBoxes c;
     otherFields := otherFields c |}.

Definition set_numDocumentsInput (e : element) (c : Controls) : Controls :=
  {| serviceTypeSelect := serviceTypeSelect c; regionSelect := regionSelect c;
     locationTypeSelect := locationTypeSelect c;
     numDocumentsInput := e;
     sessionHoursSelect := sessionHoursSelect c;
     urgencyRadios := urgencyRadios c; deliveryRadios := deliveryRadios c;
     addonsBoxes := addonsBoxes c;
     remoteUrgencyBoxes := remoteUrgencyBoxes c;
     otherFields := otherFields c |}.

Definition set_urgencyRadios (r : list checkbox) (c : Controls) : Controls :=
  {| serviceTypeSelect := serviceTypeSelect c; regionSelect := regionSelect c;
     locationTypeSelect := locationTypeSelect c;
     numDocumentsInput := numDocumentsInput c;
     sessionHoursSelect := sessionHoursSelect c;
     urgencyRadios := r; deliveryRadios := deliveryRadios c;
     addonsBoxes := addonsBoxes c;
     remoteUrgencyBoxes := remoteUrgencyBoxes c;
     otherFields := otherFields c |}.

Definition set_deliveryRadios (r : list checkbox) (c : Controls) : Controls :=
  {| serviceTypeSelect := serviceTypeSelect c; regionSelect := regionSelect c;
     locationTypeSelect := locationTypeSelect c;
     numDocumentsInput := numDocumentsInput c;
     sessionHoursSelect := sessionHoursSelect c;
     urgencyRadios := urgencyRadios c; deliveryRadios := r;
     addonsBoxes := addonsBoxes c;
     remoteUrgencyBoxes := remoteUrgencyBoxes c;
     otherFields := otherFields c |}.

Definition set_addonsBoxes (b : list checkbox) (c : Controls) : Controls :=
  {| serviceTypeSelect := serviceTypeSelect c; regionSelect := regionSelect c;
     locationTypeSelect := locationTypeSelect c;
     numDocumentsInput := numDocumentsInput c;
     sessionHoursSelect := sessionHoursSelect c;
     urgencyRadios := urgencyRadios c; deliveryRadios := deliveryRadios c;
     addonsBoxes := b;
     remoteUrgencyBoxes := remoteUrgencyBoxes c;
     otherFields := otherFields c |}.

(** [querySelectorAll('input[name=...]:checked')]: the values of the
    checked inputs of a group, in document order. *)
Definition checkedValues (group : list checkbox) : list string :=
  map cb_value (filter cb_checked group).

(** [querySelector('input[name=...]:checked')?.value]: the value of the
    first checked input of a group, [None] when there is none. *)
Definition firstCheckedValue (group : list checkbox) : option string :=
  match checkedValues group with
  | v :: _ => Some v
  | [] => None
  end.

(** [querySelector('input[name=...][value=v]')] followed by
    [if (found) found.checked = false]: the first input of the group whose
    value is [v], if there is one, is unchecked. *)
Fixpoint uncheckFirst (v : string) (group : list checkbox) : list checkbox :=
  match group with
  | [] => []
  | cb :: rest =>
      if String.eqb (cb_value cb) v
      then {| cb_value := cb_value cb; cb_checked := false |} :: rest
      else cb :: uncheckFirst v rest
  end.

(** The browser's default action on a click on the [i]-th checkbox of a
    group: its checked state flips before the [change] event is
    dispatched. *)
Fixpoint click (i : nat) (group : list checkbox) : list checkbox :=
  match group, i with
  | [], _ => []
  | cb :: rest, O =>
      {| cb_value := cb_value cb; cb_checked := negb (cb_checked cb) |} :: rest
  | cb :: rest, S j => cb :: click j rest
  end.

(** The lines of the quote summary that are on display.  The script never
    touches the display of the base line, which heads the summary; every
    other line is shown or hidden through [style.display]. *)
Definition shown (l : line) : bool := negb (String.eqb (display l) "none").

Definition lines (d : QuoteDom) : list line :=
  baseServiceLine d ::
  filter shown
    [documentsLine d; sessionOverageLine d; recordingLine d;
     complexityLine d; urgencyLine d; bookingUrgencyLine d;
     deliveryLine d; locationLine d].

(** The amount a line charges: a literal text such as [Included] charges
    nothing. *)
Definition amountOf (t : text) : Q :=
  match t with
  | Currency a => a
  | Plain _ => 0%Q
  end.

Definition lineAmount (l : line) : Q := amountOf (content l).

Definition sumAmounts (ls : list line) : Q :=
  fold_right (fun l acc => (lineAmount l + acc)%Q) 0%Q ls.

End DOM.

(* ================================================================== *)
(** ** The calculator of [src/app.js] *)

Module App.
Import DOM.
Local Open Scope Q_scope.

(** The object [quote] built by [calculateQuote]. *)
Record quote := {
  serviceName : string;
  basePrice : Q;
  numDocs : Z;
  additionalDocsPrice : Q;
  sessionOveragePrice : Q;
  recordingPrice : Q;
  complexityPrice : Q;
  urgencyPrice : Q;
  bookingUrgencyPrice : Q;
  deliveryPrice : Q;
  locationPrice : Q;
  urgency : string;
  delivery : string;
  locationType : string;
  isRemoteService : bool
}.

(** The fields a [switch] case assigns, in one step.  Fields not listed in
    a case keep the value of the initial object. *)
Definition assign (q : quote) (name : string) (base addDocs overage rec cplx
    urg booking deliv loc : Q) (remote : bool) : quote :=
  {| serviceName := name; basePrice := base; numDocs := numDocs q;
     additionalDocsPrice := addDocs; sessionOveragePrice := overage;
     recordingPrice := rec; complexityPrice := cplx; urgencyPrice := urg;
     bookingUrgencyPrice := booking; deliveryPrice := deliv;
     locationPrice := loc; urgency := urgency q; delivery := delivery q;
     locationType := locationType q; isRemoteService := remote |}.

(** Body of the [forEach] of [calculateRecordingAddons]. *)
Definition recordingAddon (hasAudioVideo : bool) (total : Q) (value : string) : Q :=
  if String.eqb value "audio" then total + PRICING.recording.audio
  else if String.eqb value "audio_video" then total + PRICING.recording.audio_video
  else if String.eqb value "timestamp" then
    if negb hasAudioVideo then total + PRICING.recording.timestamp else total
  else if String.eqb value "same_day_delivery" then
    total + PRICING.recording.same_day_delivery
  else if String.eqb value "24hr_delivery" then
    total + PRICING.recording.delivery_24hr
  else if String.eqb value "archive_monthly" then
    total + PRICING.recording.archive_monthly
  else if String.eqb value "archive_yearly" then
    total + PRICING.recording.archive_yearly
  else total.

Definition calculateRecordingAddons (c : Controls) : Q :=
  let selectedAddons := checkedValues (addonsBoxes c) in
  let hasAudioVideo :=
    existsb (fun v => String.eqb v "audio_video") selectedAddons in
  fold_left (recordingAddon hasAudioVideo) selectedAddons 0.

(** Body of the [forEach] of [calculateComplexityAddons] and of
    [calculateRemoteUrgency]: a truthy table entry is added. *)
Definition tableAddon (table : list (string * Q)) (total : Q) (value : string) : Q :=
  if JS.truthy (JS.lookup value table)
  then total + JS.numOr0 (JS.lookup value table)
  else total.

Definition calculateComplexityAddons (c : Controls) : Q :=
  let selectedAddons := checkedValues (addonsBoxes c) in
  fold_left (tableAddon PRICING.complexity) selectedAddons 0.

Definition calculateRemoteUrgency (c : Controls) : Q :=
  let selectedUrgency := checkedValues (remoteUrgencyBoxes c) in
  fold_left (tableAddon PRICING.remoteUrgency) selectedUrgency 0.

Definition regionNames : list (string * string) :=
  [("nj", "New Jersey"); ("dmv", "DMV Area"); ("tn", "Tennessee");
   ("swva", "Roanoke/SWVA"); ("federal", "Federal")].

(** [o || d] for a looked-up text. *)
Definition textOr (o : option string) (d : string) : string :=
  match o with
  | Some s => JS.strOr s d
  | None => d
  end.

Definition getRegionName (region : string) : string :=
  textOr (JS.lookup region regionNames) region.

(** The block [if (numDocs > 1) additionalDocsPrice = (numDocs - 1) * perDoc]
    that the four notarization cases repeat; the price stays at its initial 0
    otherwise. *)
Definition perDocCharge (numDocs : Z) (rate : Q) : Q :=
  if (1 <? numDocs)%Z then inject_Z (numDocs - 1) * rate else 0.

(** The part of [calculateQuote] that reads the controls and fills the
    object [quote]. *)
Definition buildQuote (c : Controls) : quote :=
  let serviceType := value (serviceTypeSelect c) in
  let region := value (regionSelect c) in
  let numDocs := JS.intOr (JS.parseInt (value (numDocumentsInput c))) 1%Z in
  let urgency :=
    textOr (firstCheckedValue (urgencyRadios c)) "standard" in
  let delivery :=
    textOr (firstCheckedValue (deliveryRadios c)) "pickup" in
  let locationType := value (locationTypeSelect c) in
  let sessionHours :=
    JS.intOr (match sessionHoursSelect c with
              | Some e => JS.parseInt (value e)
              | None => None
              end) 4%Z in
  let quote :=
    {| serviceName := ""; basePrice := 0; numDocs := numDocs;
       additionalDocsPrice := 0; sessionOveragePrice := 0;
       recordingPrice := 0; complexityPrice := 0; urgencyPrice := 0;
       bookingUrgencyPrice := 0; deliveryPrice := 0; locationPrice := 0;
       urgency := urgency; delivery := delivery;
       locationType := locationType; isRemoteService := false |} in
  let urgencyFee := JS.numOr0 (JS.lookup urgency PRICING.urgency) in
  let deliveryFee := JS.numOr0 (JS.lookup delivery PRICING.delivery) in
  let locationFee := JS.numOr0 (JS.lookup locationType PRICING.location) in
  if String.eqb serviceType "apostille" then
    let found :=
      negb (String.eqb region "")
      && JS.truthy (JS.lookup region PRICING.apostille) in
    let base :=
      if found then JS.numOr0 (JS.lookup region PRICING.apostille) else 0 in
    let addDocs :=
      if found then
        if (1 <? numDocs)%Z
        then inject_Z (numDocs - 1)
             * (base * (1 - PRICING.additionalDocDiscount))
        else 0
      else 0 in
    let name :=
      if negb (String.eqb region "")
      then getRegionName region ++ " Apostille" else "Apostille" in
    assign quote name base addDocs 0 0 0 urgencyFee 0 deliveryFee 0 false
  else if String.eqb serviceType "poa" then
    assign quote "Power of Attorney" (PRICING.base PRICING.poa)
      (perDocCharge numDocs (PRICING.perDoc PRICING.poa))
      0 0 0 urgencyFee 0 deliveryFee locationFee false
  else if String.eqb serviceType "trust" then
    assign quote "Trust Notarization" (PRICING.base PRICING.trust)
      (perDocCharge numDocs (PRICING.perDoc PRICING.trust))
      0 0 0 urgencyFee 0 deliveryFee locationFee false
  else if String.eqb serviceType "loan" then
    assign quote "Loan Signing" (PRICING.base PRICING.loan)
      (perDocCharge numDocs (PRICING.perDoc PRICING.loan))
      0 0 0 urgencyFee 0 deliveryFee locationFee false
  else if String.eqb serviceType "hospital" then
    assign quote "Hospital/Nursing Home Notarization"
      (PRICING.base PRICING.hospital)
      (perDocCharge numDocs (PRICING.perDoc PRICING.hospital))
      0 0 0 urgencyFee 0 deliveryFee 0 false
  else if String.eqb serviceType "remote" then
    let overage :=
      if (4 <? sessionHours)%Z
      then inject_Z (sessionHours - 4) * PRICING.remote.overagePerHour
      else 0 in
    assign quote "Remote Deposition Support" PRICING.remote.base 0 overage
      (calculateRecordingAddons c) (calculateComplexityAddons c) 0
      (calculateRemoteUrgency c) 0 0 true
  else if String.eqb serviceType "recording_only" then
    assign quote "Digital Recording (Add-on)" 0 0 0
      (calculateRecordingAddons c) 0 0 (calculateRemoteUrgency c) 0 0 true
  else if String.eqb serviceType "certified_reporter" then
    assign quote "Certified Reporter Coordination"
      PRICING.certified_reporter.coordination 0 0 0 0 0
      (calculateRemoteUrgency c) 0 0 true
  else quote.

(** [price > 0] *)
Definition positive (price : Q) : bool := negb (Qle_bool price 0).

(** A line that is shown with a label and an amount when the amount is
    positive and hidden otherwise, keeping its last label and value. *)
Definition feeLine (price : Q) (lbl : string) (l : line) : line :=
  if positive price
  then {| display := "flex"; label := lbl; content := Currency price |}
  else {| display := "none"; label := label l; content := content l |}.

Definition deliveryNames : list (string * string) :=
  [("standard_mail", "Standard Mail"); ("express", "Express Shipping");
   ("international", "International Shipping")].

Definition locationNames : list (string * string) :=
  [("mobile", "Mobile Service Fee"); ("hospital", "Hospital/Facility Fee")].

(** The total computed at the end of [updateQuoteDisplay], summed in the
    order of the source. *)
Definition total (q : quote) : Q :=
  basePrice q + additionalDocsPrice q + sessionOveragePrice q
  + recordingPrice q + complexityPrice q + urgencyPrice q
  + bookingUrgencyPrice q + deliveryPrice q + locationPrice q.

Definition updateQuoteDisplay (q : quote) (d : QuoteDom) : QuoteDom :=
  {| baseServiceLine :=
       {| display := display (baseServiceLine d);
          label := JS.strOr (serviceName q) "Base Service";
          content := Currency (basePrice q) |};
     documentsLine :=
       if isRemoteService q then
         {| display := "none"; label := label (documentsLine d);
            content := content (documentsLine d) |}
       else if (1 <? numDocs q)%Z then
         {| display := "flex";
            label := "Additional Documents ("
                     ++ JS.toString (numDocs q - 1)%Z ++ ")";
            content := Currency (additionalDocsPrice q) |}
       else
         {| display := "flex"; label := "Documents (1)";
            content := Plain "Included" |};
     sessionOverageLine :=
       feeLine (sessionOveragePrice q) "Session Overage"
         (sessionOverageLine d);
     recordingLine :=
       feeLine (recordingPrice q) "Recording Add-ons" (recordingLine d);
     complexityLine :=
       feeLine (complexityPrice q) "Complexity Add-ons" (complexityLine d);
     urgencyLine :=
       feeLine (urgencyPrice q)
         (if String.eqb (urgency q) "expedited"
          then "Expedited Processing" else "Rush Processing")
         (urgencyLine d);
     bookingUrgencyLine :=
       feeLine (bookingUrgencyPrice q) "Booking/Timing Fees"
         (bookingUrgencyLine d);
     deliveryLine :=
       feeLine (deliveryPrice q)
         (textOr (JS.lookup (delivery q) deliveryNames) "Delivery")
         (deliveryLine d);
     locationLine :=
       feeLine (locationPrice q)
         (textOr (JS.lookup (locationType q) locationNames) "Location Fee")
         (locationLine d);
     totalPriceEl := Currency (total q) |}.

Definition calculateQuote (p : Page) : Page :=
  set_quoteDom (updateQuoteDisplay (buildQuote (controls p)) (quoteDom p)) p.

(** The three blocks of [handleAddonChange] that enforce the exclusive
    choices, for a [change] event whose target has value [value] and
    checked state [checked]. *)
Definition resolveExclusive (value : string) (checked : bool)
    (group : list checkbox) : list checkbox :=
  let g1 :=
    if String.eqb value "audio" && checked
    then uncheckFirst "audio_video" group
    else if String.eqb value "audio_video" && checked
    then uncheckFirst "audio" group
    else group in
  let g2 :=
    if (String.eqb value "same_day_delivery"
        || String.eqb value "24hr_delivery") && checked
    then
      let otherDelivery :=
        if String.eqb value "same_day_delivery"
        then "24hr_delivery" else "same_day_delivery" in
      uncheckFirst otherDelivery g1
    else g1 in
  if (String.eqb value "archive_monthly"
      || String.eqb value "archive_yearly") && checked
  then
    let otherArchive :=
      if String.eqb value "archive_monthly"
      then "archive_yearly" else "archive_monthly" in
    uncheckFirst otherArchive g2
  else g2.

(** [handleAddonChange(e)] where [e.target] is the [i]-th add-on checkbox.
    An index outside the group is no checkbox, so no event. *)
Definition handleAddonChange (i : nat) (p : Page) : Page :=
  match nth_error (addonsBoxes (controls p)) i with
  | Some checkbox =>
      let boxes :=
        resolveExclusive (cb_value checkbox) (cb_checked checkbox)
          (addonsBoxes (controls p)) in
      calculateQuote (set_controls (set_addonsBoxes boxes (controls p)) p)
  | None => p
  end.

(** A user toggle of the [i]-th add-on checkbox: the browser flips the
    box, then dispatches [change] to [handleAddonChange]. *)
Definition toggleAddon (i : nat) (p : Page) : Page :=
  handleAddonChange i
    (set_controls
       (set_addonsBoxes (click i (addonsBoxes (controls p))) (controls p)) p).

(** [goToStep(stepNumber)].  The [active]/[completed] classes of the step
    and progress elements and the scrolling are presentation only and are
    not part of the state. *)
Definition goToStep (stepNumber : option Z) (p : Page) : Page :=
  let p1 := if JS.strictEq stepNumber 3 then calculateQuote p else p in
  set_currentStep stepNumber p1.

(** The controls of the page that can carry [required]. *)
Definition fields (c : Controls) : list element :=
  serviceTypeSelect c :: regionSelect c :: locationTypeSelect c
  :: numDocumentsInput c
  :: match sessionHoursSelect c with Some e => [e] | None => [] end
  ++ otherFields c.

Definition mapFields (f : element -> element) (c : Controls) : Controls :=
  {| serviceTypeSelect := f (serviceTypeSelect c);
     regionSelect := f (regionSelect c);
     locationTypeSelect := f (locationTypeSelect c);
     numDocumentsInput := f (numDocumentsInput c);
     sessionHoursSelect := option_map f (sessionHoursSelect c);
     urgencyRadios := urgencyRadios c; deliveryRadios := deliveryRadios c;
     addonsBoxes := addonsBoxes c;
     remoteUrgencyBoxes := remoteUrgencyBoxes c;
     otherFields := map f (otherFields c) |}.

(** A field of [requiredFields] that is not skipped and has no value: a
    [required] control inside the current step element, laid out, with an
    empty value. *)
Definition missing (stepNo : Z) (field : element) : bool :=
  required field && (step field =? stepNo)%Z
  && negb (hidden field) && String.eqb (value field) "".

Definition validateField (stepNo : Z) (field : element) : element :=
  if missing stepNo field then addError field else field.

(** [validateCurrentStep()]: the verdict and the page with the [error]
    classes and the notification it sets.  [None] is the TypeError raised
    when no [.form-step] carries the current step, so that
    [currentStepEl] is [null].  The one-shot [input] listeners that later
    remove an [error] class belong to later events and are not part of the
    state. *)
Definition validateCurrentStep (p : Page) : option (bool * Page) :=
  match currentStep p with
  | Some stepNo =>
      if existsb (Z.eqb stepNo) (formSteps p) then
        let c := controls p in
        let isValid1 := negb (existsb (missing stepNo) (fields c)) in
        let c1 := mapFields (validateField stepNo) c in
        let special :=
          JS.strictEq (currentStep p) 1
          && String.eqb (value (serviceTypeSelect c)) "apostille"
          && String.eqb (value (regionSelect c)) "" in
        let isValid := if special then false else isValid1 in
        let c2 :=
          if special
          then set_regionSelect (addError (regionSelect c1)) c1 else c1 in
        let p2 := set_controls c2 p in
        let p3 :=
          if negb isValid
          then set_notification
                 (Some ("Please fill in all required fields", "error")) p2
          else p2 in
        Some (isValid, p3)
      else None
  | None => None
  end.

(** The click handler of a [.btn-next] button whose [data-next] is
    [dataNext]. *)
Definition btnNext (dataNext : string) (p : Page) : option Page :=
  let nextStep := JS.parseInt dataNext in
  match validateCurrentStep p with
  | Some (true, p1) => Some (goToStep nextStep p1)
  | Some (false, p1) => Some p1
  | None => None
  end.

(** The click handler of a [.btn-prev] button. *)
Definition btnPrev (dataPrev : string) (p : Page) : Page :=
  goToStep (JS.parseInt dataPrev) p.

(** The user picks the option [v] of the region select: the value changes
    and the [change] listener, [calculateQuote], runs. *)
Definition changeRegion (v : string) (p : Page) : Page :=
  calculateQuote
    (set_controls
       (set_regionSelect (set_value v (regionSelect (controls p)))
          (controls p)) p).

(** The user types [v] in the documents input; its [change] listener is
    [calculateQuote]. *)
Definition changeNumDocuments (v : string) (p : Page) : Page :=
  calculateQuote
    (set_controls
       (set_numDocumentsInput (set_value v (numDocumentsInput (controls p)))
          (controls p)) p).

(** The user changes the urgency radios, leaving the group in the state
    [radios]; the [change] listener is [calculateQuote]. *)
Definition changeUrgency (radios : list checkbox) (p : Page) : Page :=
  calculateQuote (set_controls (set_urgencyRadios radios (controls p)) p).

(** The same for the delivery radios. *)
Definition changeDelivery (radios : list checkbox) (p : Page) : Page :=
  calculateQuote (set_controls (set_deliveryRadios radios (controls p)) p).

End App.

(* ================================================================== *)
(** ** The older calculator kept in [src/unnamed/part_001]

    It has its own copy of the price table, without the remote groups, and
    a quote summary of five lines and a total. *)

Module Legacy.
Import DOM.
Local Open Scope Q_scope.

Module PRICING.

Definition apostille : list (string * Q) :=
  [("nj", 447); ("dmv", 397); ("tn", 347); ("swva", 297);
   ("federal", 497)].

Record notarization := { base : Q; max : option Q; perDoc : Q }.

Definition poa := {| base := 115; max := Some 150; perDoc := 25 |}.
Definition trust := {| base := 125; max := Some 175; perDoc := 35 |}.
Definition loan := {| base := 80; max := None; perDoc := 15 |}.
Definition hospital := {| base := 100; max := None; perDoc := 25 |}.

Definition urgency : list (string * Q) :=
  [("standard", 0); ("expedited", 75); ("rush", 150)].

Definition delivery : list (string * Q) :=
  [("pickup", 0); ("standard_mail", 15); ("express", 35);
   ("international", 75)].

Definition location : list (string * Q) :=
  [("office", 0); ("mobile", 25); ("hospital", 25)].

Definition additionalDocDiscount : Q := 15 # 100.

End PRICING.

(** The object literal passed to [updateQuoteDisplay]. *)
Record quote := {
  serviceName : string;
  basePrice : Q;
  numDocs : Z;
  additionalDocsPrice : Q;
  urgency : string;
  urgencyPrice : Q;
  delivery : string;
  deliveryPrice : Q;
  locationType : string;
  locationPrice : Q
}.

Definition perDocCharge (numDocs : Z) (rate : Q) : Q :=
  if (1 <? numDocs)%Z then inject_Z (numDocs - 1) * rate else 0.

Definition buildQuote (c : Controls) : quote :=
  let serviceType := value (serviceTypeSelect c) in
  let region := value (regionSelect c) in
  let numDocs := JS.intOr (JS.parseInt (value (numDocumentsInput c))) 1%Z in
  let urgency :=
    App.textOr (firstCheckedValue (urgencyRadios c)) "standard" in
  let delivery :=
    App.textOr (firstCheckedValue (deliveryRadios c)) "pickup" in
  let locationType := value (locationTypeSelect c) in
  let urgencyPrice := JS.numOr0 (JS.lookup urgency PRICING.urgency) in
  let deliveryPrice := JS.numOr0 (JS.lookup delivery PRICING.delivery) in
  let locationFee := JS.numOr0 (JS.lookup locationType PRICING.location) in
  let result name base addDocs loc :=
    {| serviceName := name; basePrice := base; numDocs := numDocs;
       additionalDocsPrice := addDocs; urgency := urgency;
       urgencyPrice := urgencyPrice; delivery := delivery;
       deliveryPrice := deliveryPrice; locationType := locationType;
       locationPrice := loc |} in
  if String.eqb serviceType "apostille" then
    let found :=
      negb (String.eqb region "")
      && JS.truthy (JS.lookup region PRICING.apostille) in
    let base :=
      if found then JS.numOr0 (JS.lookup region PRICING.apostille) else 0 in
    let addDocs :=
      if found then
        if (1 <? numDocs)%Z
        then inject_Z (numDocs - 1)
             * (base * (1 - PRICING.additionalDocDiscount))
        else 0
      else 0 in
    let name :=
      if negb (String.eqb region "")
      then App.getRegionName region ++ " Apostille" else "Apostille" in
    result name base addDocs 0
  else if String.eqb serviceType "poa" then
    result "Power of Attorney" (PRICING.base PRICING.poa)
      (perDocCharge numDocs (PRICING.perDoc PRICING.poa)) locationFee
  else if String.eqb serviceType "trust" then
    result "Trust Notarization" (PRICING.base PRICING.trust)
      (perDocCharge numDocs (PRICING.perDoc PRICING.trust)) locationFee
  else if String.eqb serviceType "loan" then
    result "Loan Signing" (PRICING.base PRICING.loan)
      (perDocCharge numDocs (PRICING.perDoc PRICING.loan)) locationFee
  else if String.eqb serviceType "hospital" then
    result "Hospital/Nursing Home Notarization"
      (PRICING.base PRICING.hospital)
      (perDocCharge numDocs (PRICING.perDoc PRICING.hospital)) 0
  else result "" 0 0 0.

Definition total (q : quote) : Q :=
  basePrice q + additionalDocsPrice q + urgencyPrice q
  + deliveryPrice q + locationPrice q.

(** The older summary has no line for sessions, recordings, complexity or
    booking; those lines of the page, if present, are left as they are, and
    the display of the documents line is never written. *)
Definition updateQuoteDisplay (q : quote) (d : QuoteDom) : QuoteDom :=
  {| baseServiceLine :=
       {| display := display (baseServiceLine d);
          label := JS.strOr (serviceName q) "Base Service";
          content := Currency (basePrice q) |};
     documentsLine :=
       if (1 <? numDocs q)%Z then
         {| display := display (documentsLine d);
            label := "Additional Documents ("
                     ++ JS.toString (numDocs q - 1)%Z ++ ")";
            content := Currency (additionalDocsPrice q) |}
       else
         {| display := display (documentsLine d);
            label := "Documents (1)"; content := Plain "Included" |};
     sessionOverageLine := sessionOverageLine d;
     recordingLine := recordingLine d;
     complexityLine := complexityLine d;
     urgencyLine :=
       App.feeLine (urgencyPrice q)
         (if String.eqb (urgency q) "expedited"
          then "Expedited Processing" else "Rush Processing")
         (urgencyLine d);
     bookingUrgencyLine := bookingUrgencyLine d;
     deliveryLine :=
       App.feeLine (deliveryPrice q)
         (App.textOr (JS.lookup (delivery q) App.deliveryNames) "Delivery")
         (deliveryLine d);
     locationLine :=
       App.feeLine (locationPrice q)
         (App.textOr (JS.lookup (locationType q) App.locationNames)
            "Location Fee")
         (locationLine d);
     totalPriceEl := Currency (total q) |}.

Definition calculateQuote (p : Page) : Page :=
  set_quoteDom (updateQuoteDisplay (buildQuote (controls p)) (quoteDom p)) p.

End Legacy.

(* ================================================================== *)
(** ** Sample pages *)

Module Sample.
Import DOM.

Definition control (v : string) : element :=
  {| value := v; required := false; hidden := false; step := 1;
     error := false |}.

Definition box (v : string) (on : bool) : checkbox :=
  {| cb_value := v; cb_checked := on |}.

Definition blankLine : line :=
  {| display := "none"; label := ""; content := Plain "" |}.

Definition blankQuote : QuoteDom :=
  {| baseServiceLine := {| display := ""; label := "Base Service";
                           content := Plain "$0.00" |};
     documentsLine := {| display := ""; label := "Documents (1)";
                         content := Plain "Included" |};
     sessionOverageLine := blankLine; recordingLine := blankLine;
     complexityLine := blankLine; urgencyLine := blankLine;
     bookingUrgencyLine := blankLine; deliveryLine := blankLine;
     locationLine := blankLine; totalPriceEl := Plain "$0.00" |}.

Definition addonNames : list string :=
  ["audio"; "audio_video"; "timestamp"; "same_day_delivery";
   "24hr_delivery"; "archive_monthly"; "archive_yearly";
   "heavy_exhibits"; "multi_party"; "interpreter"; "second_tech"].

Definition bookingNames : list string :=
  ["rush_booking"; "same_day_booking"; "after_hours"; "weekend_holiday"].

Definition boxes (names selected : list string) : list checkbox :=
  map (fun n => box n (existsb (String.eqb n) selected)) names.

(** A page in step 1 with the given selection. *)
Definition page (serviceType region locationType numDocuments sessionHours
    urgency delivery : string) (addons booking : list string) : Page :=
  {| controls :=
       {| serviceTypeSelect :=
            {| value := serviceType; required := true; hidden := false;
               step := 1; error := false |};
          regionSelect :=
            {| value := region;
               required := String.eqb serviceType "apostille";
               hidden := negb (String.eqb serviceType "apostille");
               step := 1; error := false |};
          locationTypeSelect := control locationType;
          numDocumentsInput := control numDocuments;
          sessionHoursSelect := Some (control sessionHours);
          urgencyRadios := boxes ["standard"; "expedited"; "rush"] [urgency];
          deliveryRadios :=
            boxes ["pickup"; "standard_mail"; "express"; "international"]
              [delivery];
          addonsBoxes := boxes addonNames addons;
          remoteUrgencyBoxes := boxes bookingNames booking;
          otherFields :=
            [{| value := ""; required := true; hidden := true; step := 2;
                error := false |}] |};
     quoteDom := blankQuote;
     formSteps := [1; 2; 3];
     currentStep := Some 1;
     notification := None |}.

Definition scenario1 : Page :=
  page "apostille" "nj" "" "3" "4" "standard" "pickup" [] [].

Definition scenario2 : Page :=
  page "poa" "" "mobile" "1" "4" "expedited" "standard_mail" [] [].

Definition scenario3 : Page :=
  page "remote" "" "" "1" "6" "standard" "pickup"
    ["audio_video"] ["rush_booking"].

Definition scenario4 : Page :=
  page "apostille" "" "" "1" "4" "standard" "pickup" [] [].

End Sample.

(* ================================================================== *)
(** ** Service-type changes and the remaining controls of [src/app.js] *)

Module Form.
Import DOM.

(** [style.display] of the groups that [handleServiceTypeChange] shows and
    hides.  The three groups the script guards with [if (group)] may be
    absent from the page ([None]). *)
Record Groups := {
  regionGroup : string;
  locationTypeGroup : string;
  sessionHoursGroup : string;
  recordingAddonsGroup : string;
  recordingDeliveryGroup : string;
  complexityGroup : string;
  certifiedReporterGroup : string;
  numDocumentsGroup : string;
  standardUrgencyGroup : option string;
  remoteUrgencyGroup : option string;
  deliveryGroup : option string
}.

(** [regionSelect.required = b] *)
Definition set_required (b : bool) (e : element) : element :=
  {| value := value e; required := b; hidden := hidden e;
     step := step e; error := error e |}.

Definition set_remoteUrgencyBoxes (b : list checkbox) (c : Controls) : Controls :=
  {| serviceTypeSelect := serviceTypeSelect c; regionSelect := regionSelect c;
     locationTypeSelect := locationTypeSelect c;
     numDocumentsInput := numDocumentsInput c;
     sessionHoursSelect := sessionHoursSelect c;
     urgencyRadios := urgencyRadios c; deliveryRadios := deliveryRadios c;
     addonsBoxes := addonsBoxes c;
     remoteUrgencyBoxes := b;
     otherFields := otherFields c |}.

Definition set_sessionHoursSelect (e : option element) (c : Controls) : Controls :=
  {| serviceTypeSelect := serviceTypeSelect c; regionSelect := regionSelect c;
     locationTypeSelect := locationTypeSelect c;
     numDocumentsInput := numDocumentsInput c;
     sessionHoursSelect := e;
     urgencyRadios := urgencyRadios c; deliveryRadios := deliveryRadios c;
     addonsBoxes := addonsBoxes c;
     remoteUrgencyBoxes := remoteUrgencyBoxes c;
     otherFields := otherFields c |}.

Definition set_locationTypeSelect (e : element) (c : Controls) : Controls :=
  {| serviceTypeSelect := serviceTypeSelect c; regionSelect := regionSelect c;
     locationTypeSelect := e;
     numDocumentsInput := numDocumentsInput c;
     sessionHoursSelect := sessionHoursSelect c;
     urgencyRadios := urgencyRadios c; deliveryRadios := deliveryRadios c;
     addonsBoxes := addonsBoxes c;
     remoteUrgencyBoxes := remoteUrgencyBoxes c;
     otherFields := otherFields c |}.

(** [['remote', 'recording_only', 'certified_reporter'].includes(serviceType)] *)
Definition isRemoteType (serviceType : string) : bool :=
  existsb (String.eqb serviceType)
    ["remote"; "recording_only"; "certified_reporter"].

(** [if (group) group.style.display = v] *)
Definition displayIfPresent (v : string) (group : option string) : option string :=
  option_map (fun _ => v) group.

(** The groups after the reset and the urgency toggles of
    [handleServiceTypeChange], with the displays a [switch] case overrides
    given in the order region, location type, session hours, recording
    add-ons, recording delivery, complexity, certified reporter, documents. *)
Definition layout (isRemoteService : bool) (g : Groups)
    (region location hours recording recDelivery cplx reporter docs : string)
    : Groups :=
  {| regionGroup := region;
     locationTypeGroup := location;
     sessionHoursGroup := hours;
     recordingAddonsGroup := recording;
     recordingDeliveryGroup := recDelivery;
     complexityGroup := cplx;
     certifiedReporterGroup := reporter;
     numDocumentsGroup := docs;
     standardUrgencyGroup :=
       displayIfPresent (if isRemoteService then "none" else "block")
         (standardUrgencyGroup g);
     remoteUrgencyGroup :=
       displayIfPresent (if isRemoteService then "block" else "none")
         (remoteUrgencyGroup g);
     deliveryGroup :=
       displayIfPresent (if isRemoteService then "none" else "block")
         (deliveryGroup g) |}.

(** [handleServiceTypeChange()]: the reset, the urgency toggles, the
    [switch] and the final [calculateQuote].  Whether a control is laid out
    ([hidden]) is computed by the browser from these displays and the
    markup; the handler does not write it and it is left as it is here. *)
Definition handleServiceTypeChange (p : Page) (g : Groups) : Page * Groups :=
  let serviceType := value (serviceTypeSelect (controls p)) in
  let isRemoteService := isRemoteType serviceType in
  let reset := layout isRemoteService g
                 "none" "none" "none" "none" "none" "none" "none" "block" in
  let '(required, groups) :=
    if String.eqb serviceType "apostille" then
      (true, layout isRemoteService g
               "block" "none" "none" "none" "none" "none" "none" "block")
    else if String.eqb serviceType "poa" || String.eqb serviceType "trust"
            || String.eqb serviceType "loan" then
      (false, layout isRemoteService g
                "none" "block" "none" "none" "none" "none" "none" "block")
    else if String.eqb serviceType "hospital" then (false, reset)
    else if String.eqb serviceType "remote" then
      (false, layout isRemoteService g
                "none" "none" "block" "block" "block" "block" "none" "none")
    else if String.eqb serviceType "recording_only" then
      (false, layout isRemoteService g
                "none" "none" "none" "block" "block" "none" "none" "none")
    else if String.eqb serviceType "certified_reporter" then
      (false, layout isRemoteService g
                "none" "none" "none" "none" "none" "none" "block" "none")
    else (false, reset) in
  let c := controls p in
  (App.calculateQuote
     (set_controls (set_regionSelect (set_required required (regionSelect c)) c)
        p),
   groups).

(** The user picks the option [v] of the service-type select; its [change]
    listener is [handleServiceTypeChange]. *)
Definition changeServiceType (v : string) (p : Page) (g : Groups) : Page * Groups :=
  let c := controls p in
  handleServiceTypeChange
    (set_controls
       {| serviceTypeSelect := set_value v (serviceTypeSelect c);
          regionSelect := regionSelect c;
          locationTypeSelect := locationTypeSelect c;
          numDocumentsInput := numDocumentsInput c;
          sessionHoursSelect := sessionHoursSelect c;
          urgencyRadios := urgencyRadios c; deliveryRadios := deliveryRadios c;
          addonsBoxes := addonsBoxes c;
          remoteUrgencyBoxes := remoteUrgencyBoxes c;
          otherFields := otherFields c |} p)
    g.

(** The user picks [v] in the session-hours select, when the page has one;
    its [change] listener is [calculateQuote]. *)
Definition changeSessionHours (v : string) (p : Page) : Page :=
  App.calculateQuote
    (set_controls
       (set_sessionHoursSelect
          (option_map (set_value v) (sessionHoursSelect (controls p)))
          (controls p)) p).

(** The user leaves the booking checkboxes in the state [boxes]; the
    [change] listener is [calculateQuote]. *)
Definition changeRemoteUrgency (boxes : list checkbox) (p : Page) : Page :=
  App.calculateQuote
    (set_controls (set_remoteUrgencyBoxes boxes (controls p)) p).

(** The user picks [v] in the location select; the [change] listener is
    [calculateQuote]. *)
Definition changeLocationType (v : string) (p : Page) : Page :=
  App.calculateQuote
    (set_controls
       (set_locationTypeSelect (set_value v (locationTypeSelect (controls p)))
          (controls p)) p).

End Form.

(* ================================================================== *)
(** ** Service-type changes and validation in [src/unnamed/part_001] *)

Module LegacyForm.
Import DOM.

(** The older [handleServiceTypeChange()] writes the region and location
    groups and [regionSelect.required] in each branch and leaves every other
    group alone. *)
Definition handleServiceTypeChange (p : Page) (g : Form.Groups)
    : Page * Form.Groups :=
  let serviceType := value (serviceTypeSelect (controls p)) in
  let groups region location :=
    {| Form.regionGroup := region;
       Form.locationTypeGroup := location;
       Form.sessionHoursGroup := Form.sessionHoursGroup g;
       Form.recordingAddonsGroup := Form.recordingAddonsGroup g;
       Form.recordingDeliveryGroup := Form.recordingDeliveryGroup g;
       Form.complexityGroup := Form.complexityGroup g;
       Form.certifiedReporterGroup := Form.certifiedReporterGroup g;
       Form.numDocumentsGroup := Form.numDocumentsGroup g;
       Form.standardUrgencyGroup := Form.standardUrgencyGroup g;
       Form.remoteUrgencyGroup := Form.remoteUrgencyGroup g;
       Form.deliveryGroup := Form.deliveryGroup g |} in
  let '(required, result) :=
    if String.eqb serviceType "apostille" then (true, groups "block" "none")
    else if String.eqb serviceType "poa" || String.eqb serviceType "trust"
            || String.eqb serviceType "loan" then
      (false, groups "none" "block")
    else if String.eqb serviceType "hospital" then
      (false, groups "none" "none")
    else (false, groups "none" "none") in
  let c := controls p in
  (Legacy.calculateQuote
     (set_controls
        (set_regionSelect (Form.set_required required (regionSelect c)) c) p),
   result).

(** The older [validateCurrentStep()] visits every required field of the
    step, laid out or not. *)
Definition missing (stepNo : Z) (field : element) : bool :=
  required field && (step field =? stepNo)%Z
  && String.eqb (value field) "".

Definition validateField (stepNo : Z) (field : element) : element :=
  if missing stepNo field then addError field else field.

Definition validateCurrentStep (p : Page) : option (bool * Page) :=
  match currentStep p with
  | Some stepNo =>
      if existsb (Z.eqb stepNo) (formSteps p) then
        let c := controls p in
        let isValid1 := negb (existsb (missing stepNo) (App.fields c)) in
        let c1 := App.mapFields (validateField stepNo) c in
        let special :=
          JS.strictEq (currentStep p) 1
          && String.eqb (value (serviceTypeSelect c)) "apostille"
          && String.eqb (value (regionSelect c)) "" in
        let isValid := if special then false else isValid1 in
        let c2 :=
          if special
          then set_regionSelect (addError (regionSelect c1)) c1 else c1 in
        let p2 := set_controls c2 p in
        let p3 :=
          if negb isValid
          then set_notification
                 (Some ("Please fill in all required fields", "error")) p2
          else p2 in
        Some (isValid, p3)
      else None
  | None => None
  end.

End LegacyForm.

(* ================================================================== *)
(** ** File uploads ([handleFiles] and the remove buttons) *)

Module Upload.

(** What the script reads of a [File]. *)
Record file := { name : string; type : string; size : Z }.

(** The part of the page that the upload handlers write: the array
    [uploadedFiles] and the notification on display.  The markup that
    [renderUploadedFiles] regenerates from the array is presentation and is
    not part of the state. *)
Record Uploads := {
  uploadedFiles : list file;
  notification : option (string * string)
}.

Definition maxSize : Z := 10 * 1024 * 1024.

Definition allowedTypes : list string :=
  ["application/pdf"; "image/jpeg"; "image/png"].

(** [allowedTypes.includes(file.type)] *)
Definition includes (x : string) (l : list string) : bool :=
  existsb (String.eqb x) l.

(** [uploadedFiles.some(f => f.name === file.name && f.size === file.size)] *)
Definition alreadyUploaded (f : file) (files : list file) : bool :=
  existsb (fun g => String.eqb (name g) (name f) && (size g =? size f)%Z)
    files.

Definition notify (message : string) (u : Uploads) : Uploads :=
  {| uploadedFiles := uploadedFiles u;
     notification := Some (message, "error") |}.

(** Body of the [forEach] of [handleFiles]. *)
Definition handleFile (u : Uploads) (f : file) : Uploads :=
  if negb (includes (type f) allowedTypes) then
    notify (name f ++ " is not a supported format") u
  else if (maxSize <? size f)%Z then
    notify (name f ++ " exceeds 10MB limit") u
  else if alreadyUploaded f (uploadedFiles u) then
    notify (name f ++ " is already uploaded") u
  else
    {| uploadedFiles := (uploadedFiles u ++ [f])%list;
       notification := notification u |}.

Definition handleFiles (files : list file) (u : Uploads) : Uploads :=
  fold_left handleFile files u.

(** [array.splice(index, 1)]: NaN counts as 0, a negative index counts from
    the end, and nothing is removed at or past the end. *)
Definition spliceOne {A : Type} (index : option Z) (l : list A) : list A :=
  let len := Z.of_nat (List.length l) in
  let relative := match index with Some n => n | None => 0 end in
  let start :=
    if relative <? 0 then Z.max (len + relative) 0 else Z.min relative len in
  (firstn (Z.to_nat start) l ++ skipn (S (Z.to_nat start)) l)%list.

(** The click handler of the [.file-remove] button whose [data-index] is
    [dataIndex]. *)
Definition removeFile (dataIndex : string) (u : Uploads) : Uploads :=
  {| uploadedFiles := spliceOne (JS.parseInt dataIndex) (uploadedFiles u);
     notification := notification u |}.

End Upload.

(* ================================================================== *)
(** ** Phone formatting ([formatPhoneNumber]) *)

Module Phone.

Definition isDigit (c : ascii) : bool :=
  let n := nat_of_ascii c in ((48 <=? n) && (n <=? 57))%nat.

(** [value.replace(/\D/g, '')]: every character that is not one of 0-9 is
    dropped (a character outside ASCII is several non-digit bytes here). *)
Fixpoint stripNonDigits (s : string) : string :=
  match s with
  | EmptyString => EmptyString
  | String c r =>
      if isDigit c then String c (stripNonDigits r) else stripNonDigits r
  end.

(** [s.slice(from, to)] for constant bounds [0 <= from <= to]. *)
Definition slice (from to : nat) (s : string) : string :=
  substring from (to - from) s.

(** [s.slice(from)] *)
Definition sliceFrom (from : nat) (s : string) : string :=
  substring from (String.length s - from) s.

(** The value that [formatPhoneNumber] writes back to the input whose value
    was [input]. *)
Definition formatPhoneNumber (input : string) : string :=
  let value := stripNonDigits input in
  if (0 <? String.length value)%nat then
    if (String.length value <=? 3)%nat then "(" ++ value
    else if (String.length value <=? 6)%nat then
      "(" ++ slice 0 3 value ++ ") " ++ sliceFrom 3 value
    else
      "(" ++ slice 0 3 value ++ ") " ++ slice 3 6 value ++ "-"
      ++ slice 6 10 value
  else value.

End Phone.

(* ================================================================== *)
(** ** Vocabulary of the properties *)

Import DOM.
Local Open Scope list_scope.
Local Open Scope Q_scope.

Definition nonnegTable (table : list (string * Q)) : Prop :=
  Forall (fun kv => 0 <= snd kv) table.

Record wellFormed (q : App.quote) : Prop := {
  wf_overage : 0 <= App.sessionOveragePrice q;
  wf_recording : 0 <= App.recordingPrice q;
  wf_complexity : 0 <= App.complexityPrice q;
  wf_urgency : 0 <= App.urgencyPrice q;
  wf_booking : 0 <= App.bookingUrgencyPrice q;
  wf_delivery : 0 <= App.deliveryPrice q;
  wf_location : 0 <= App.locationPrice q;
  wf_remote : App.isRemoteService q = true -> App.additionalDocsPrice q == 0;
  wf_single :
    (1 <? App.numDocs q)%Z = false -> App.additionalDocsPrice q == 0
}.

Definition visibleAmount (l : line) : Q :=
  if shown l then lineAmount l else 0.

(** The ordered pairs (selected member, other member) of the three
    exclusivity groups. *)
Definition exclusivePairs : list (string * string) :=
  [("audio", "audio_video"); ("audio_video", "audio");
   ("same_day_delivery", "24hr_delivery");
   ("24hr_delivery", "same_day_delivery");
   ("archive_monthly", "archive_yearly");
   ("archive_yearly", "archive_monthly")]%string.

(** What one selected identifier adds to the recording total. *)
Definition recordingRate (hasAudioVideo : bool) (value : string) : Q :=
  App.recordingAddon hasAudioVideo 0 value.

Definition sumRates (hasAudioVideo : bool) (values : list string) : Q :=
  fold_right (fun v acc => recordingRate hasAudioVideo v + acc) 0 values.

Definition hasValue (v : string) (values : list string) : bool :=
  existsb (fun w => String.eqb w v) values.

(** The page left by a rejected advance from step 1 of an apostille request
    without region. *)
Definition rejected (p : Page) : Page :=
  set_notification (Some ("Please fill in all required fields", "error"))%string
    (set_controls
       (set_regionSelect
          (addError
             (regionSelect (App.mapFields (App.validateField 1) (controls p))))
          (App.mapFields (App.validateField 1) (controls p)))
       p).

(** The values of [serviceType] that [calculateQuote] has a case for. *)
Definition serviceTypes : list string :=
  ["apostille"; "poa"; "trust"; "loan"; "hospital"; "remote";
   "recording_only"; "certified_reporter"]%string.

(** The service types that both calculators price. *)
Definition notaryServiceTypes : list string :=
  ["apostille"; "poa"; "trust"; "loan"; "hospital"]%string.

Ltac table_nonneg := unfold nonnegTable; repeat constructor; simpl; lra.

(** No exclusivity group has both members checked. *)
Definition exclusiveOk (group : list checkbox) : Prop :=
  forall A B : string,
    In (A, B) exclusivePairs ->
    ~ (In A (checkedValues group) /\ In B (checkedValues group)).

(** A file that passes the type and size checks of [handleFiles]. *)
Definition acceptable (f : Upload.file) : Prop :=
  In (Upload.type f) Upload.allowedTypes /\ (Upload.size f <= Upload.maxSize)%Z.

(** The key by which [handleFiles] recognises a file already uploaded. *)
Definition fileKey (f : Upload.file) : string * Z :=
  (Upload.name f, Upload.size f).

(** What makes [validateCurrentStep] reject step [n]: a required field of
    the step that is laid out and empty, or, in step 1, an apostille without
    region. *)
Definition stepBlocked (p : Page) (n : Z) : Prop :=
  (exists f, In f (App.fields (controls p))
             /\ required f = true /\ step f = n
             /\ hidden f = false /\ value f = ""%string)
  \/ (n = 1%Z
      /\ value (serviceTypeSelect (controls p)) = "apostille"%string
      /\ value (regionSelect (controls p)) = ""%string).

(** The attributes of a control that validation reads. *)
Definition attributes (f : element) : string * bool * bool * Z :=
  (value f, required f, hidden f, step f).

(** The three checks of [handleFiles] on one file, against the files
    uploaded so far. *)
Definition accepts (files : list Upload.file) (f : Upload.file) : bool :=
  Upload.includes (Upload.type f) Upload.allowedTypes
  && negb (Upload.maxSize <? Upload.size f)%Z
  && negb (Upload.alreadyUploaded f files).

(** What the upload list is expected to satisfy: every file has an allowed
    type and at most 10 MB, and no two files have the same name and size. *)
Definition uploadsOk (files : list Upload.file) : Prop :=
  Forall acceptable files /\ NoDup (map fileKey files).

(** Sample files: a deed and a scan that pass the checks, a spreadsheet of a
    type that is not allowed and a scan above 10 MB. *)
Definition deedPdf : Upload.file :=
  {| Upload.name := "deed.pdf"; Upload.type := "application/pdf";
     Upload.size := 120000 |}.

Definition scanPng : Upload.file :=
  {| Upload.name := "scan.png"; Upload.type := "image/png";
     Upload.size := 10485760 |}.

Definition sheetCsv : Upload.file :=
  {| Upload.name := "sheet.csv"; Upload.type := "text/csv";
     Upload.size := 900 |}.

Definition hugeJpg : Upload.file :=
  {| Upload.name := "huge.jpg"; Upload.type := "image/jpeg";
     Upload.size := 10485761 |}.

Definition noUploads : Upload.Uploads :=
  {| Upload.uploadedFiles := []; Upload.notification := None |}.

(** Every character of the text is a decimal digit. *)
Fixpoint digitsOnly (s : string) : bool :=
  match s with
  | EmptyString => true
  | String c r => Phone.isDigit c && digitsOnly r
  end.


(** Every key that the calculator looks up (the region, the location type,
    the urgency and delivery it reads from the radios, the checked add-ons
    and the checked booking options) is none of the member names that
    object literals inherit: for such controls the tables answer as their
    literals do. *)
Definition catalogKeys (c : Controls) : Prop :=
  JS.notInherited (value (regionSelect c)) = true
  /\ JS.notInherited (value (locationTypeSelect c)) = true
  /\ JS.notInherited
       (App.textOr (firstCheckedValue (urgencyRadios c)) "standard") = true
  /\ JS.notInherited
       (App.textOr (firstCheckedValue (deliveryRadios c)) "pickup") = true
  /\ Forall (fun v => JS.notInherited v = true)
       (checkedValues (addonsBoxes c))
  /\ Forall (fun v => JS.notInherited v = true)
       (checkedValues (remoteUrgencyBoxes c)).

(** Discharges [catalogKeys] on a page given in full. *)
Ltac catalog_keys :=
  unfold catalogKeys; simpl; repeat split; repeat constructor.

(** Case analysis on a service type: one case per name the script knows
    and one for every other text. *)
Ltac service_cases st :=
  let E := fresh "E" in
  destruct (String.eqb st "apostille") eqn:E;
  [apply String.eqb_eq in E; subst st|
   let E := fresh "E" in
   destruct (String.eqb st "poa") eqn:E;
   [apply String.eqb_eq in E; subst st|
    let E := fresh "E" in
    destruct (String.eqb st "trust") eqn:E;
    [apply String.eqb_eq in E; subst st|
     let E := fresh "E" in
     destruct (String.eqb st "loan") eqn:E;
     [apply String.eqb_eq in E; subst st|
      let E := fresh "E" in
      destruct (String.eqb st "hospital") eqn:E;
      [apply String.eqb_eq in E; subst st|
       let E := fresh "E" in
       destruct (String.eqb st "remote") eqn:E;
       [apply String.eqb_eq in E; subst st|
        let E := fresh "E" in
        destruct (String.eqb st "recording_only") eqn:E;
        [apply String.eqb_eq in E; subst st|
         let E := fresh "E" in
         destruct (String.eqb st "certified_reporter") eqn:E;
         [apply String.eqb_eq in E; subst st|]]]]]]]].

Ltac absent_or_shown H :=
  match type of H with
  | Form.displayIfPresent _ ?o = _ =>
      destruct o; simpl in H; discriminate H
  end.

Ltac split_digits H :=
  repeat match type of H with
         | (_ && _) = true =>
             let Hc := fresh "D" in
             apply andb_true_iff in H; destruct H as [Hc H]
         end.

Ltac phone_eval :=
  cbn [Phone.stripNonDigits Phone.slice Phone.sliceFrom String.append
       substring String.length Nat.leb Nat.ltb Nat.sub digitsOnly];
  change (Phone.isDigit "("%char) with false;
  change (Phone.isDigit ")"%char) with false;
  change (Phone.isDigit " "%char) with false;
  change (Phone.isDigit "-"%char) with false;
  cbv iota.

(* ================================================================== *)
(** ** Properties *)

(** *** Prices are never negative *)

Lemma numOr0_nonneg (table : list (string * Q)) (key : string) :
  nonnegTable table -> 0 <= JS.numOr0 (JS.lookup key table).
Proof.
  induction 1 as [|[k v] rest Hv _ IH]; simpl.
  - lra.
  - destruct (String.eqb key k); [|exact IH].
    simpl in *. destruct (negb (Qeq_bool v 0)); lra.
Qed.

Section Tables.

Variable table : list (string * Q).
Hypothesis table_nonneg : nonnegTable table.

Lemma tableAddon_mono (acc : Q) (v : string) :
  acc <= App.tableAddon table acc v.
Proof.
  unfold App.tableAddon.
  destruct (JS.truthy (JS.lookup v table)); [|lra].
  pose proof (numOr0_nonneg table v table_nonneg). lra.
Qed.

Lemma fold_tableAddon_mono (vs : list string) :
  forall acc, acc <= fold_left (App.tableAddon table) vs acc.
Proof.
  induction vs as [|v vs IH]; intros acc; simpl.
  - lra.
  - specialize (IH (App.tableAddon table acc v)).
    pose proof (tableAddon_mono acc v). lra.
Qed.

End Tables.

Lemma urgency_nonneg : nonnegTable PRICING.urgency.
Proof. table_nonneg. Qed.

Lemma delivery_nonneg : nonnegTable PRICING.delivery.
Proof. table_nonneg. Qed.

Lemma location_nonneg : nonnegTable PRICING.location.
Proof. table_nonneg. Qed.

Lemma complexity_nonneg : nonnegTable PRICING.complexity.
Proof. table_nonneg. Qed.

Lemma remoteUrgency_nonneg :
  nonnegTable PRICING.remoteUrgency.
Proof. table_nonneg. Qed.

Lemma recordingAddon_mono (av : bool) (acc : Q) (v : string) :
  acc <= App.recordingAddon av acc v.
Proof.
  unfold App.recordingAddon.
  repeat match goal with
         | |- context [if ?b then _ else _] => destruct b
         end;
    cbv [PRICING.recording.audio PRICING.recording.audio_video
         PRICING.recording.timestamp PRICING.recording.same_day_delivery
         PRICING.recording.delivery_24hr PRICING.recording.archive_monthly
         PRICING.recording.archive_yearly];
    lra.
Qed.

Lemma fold_recordingAddon_mono (av : bool) (vs : list string) :
  forall acc, acc <= fold_left (App.recordingAddon av) vs acc.
Proof.
  induction vs as [|v vs IH]; intros acc; simpl.
  - lra.
  - specialize (IH (App.recordingAddon av acc v)).
    pose proof (recordingAddon_mono av acc v). lra.
Qed.

Lemma calculateRecordingAddons_nonneg (c : Controls) :
  0 <= App.calculateRecordingAddons c.
Proof. apply fold_recordingAddon_mono. Qed.

Lemma calculateComplexityAddons_nonneg (c : Controls) :
  0 <= App.calculateComplexityAddons c.
Proof. apply fold_tableAddon_mono, complexity_nonneg. Qed.

Lemma calculateRemoteUrgency_nonneg (c : Controls) :
  0 <= App.calculateRemoteUrgency c.
Proof. apply fold_tableAddon_mono, remoteUrgency_nonneg. Qed.

(** *** What [buildQuote] guarantees to [updateQuoteDisplay] *)

Lemma perDocCharge_single (n : Z) (rate : Q) :
  (1 <? n)%Z = false -> App.perDocCharge n rate == 0.
Proof. unfold App.perDocCharge. intros ->. reflexivity. Qed.

Lemma buildQuote_wellFormed (c : Controls) : wellFormed (App.buildQuote c).
Proof.
  unfold App.buildQuote.
  repeat match goal with
         | |- wellFormed (if String.eqb ?a ?b then _ else _) =>
             destruct (String.eqb a b)
         end;
    (split; cbn [App.assign App.sessionOveragePrice App.recordingPrice
                 App.complexityPrice App.urgencyPrice
                 App.bookingUrgencyPrice App.deliveryPrice App.locationPrice
                 App.isRemoteService App.additionalDocsPrice App.numDocs];
     try first
           [ apply Qle_refl
           | apply numOr0_nonneg;
             first [ exact urgency_nonneg | exact delivery_nonneg
                   | exact location_nonneg ]
           | apply calculateRecordingAddons_nonneg
           | apply calculateComplexityAddons_nonneg
           | apply calculateRemoteUrgency_nonneg ];
     try discriminate; try reflexivity;
     try (apply perDocCharge_single)).
  - (* apostille: one document *)
    intros ->. destruct (_ && _); reflexivity.
  - (* remote: the overage is a positive multiple of the hourly rate *)
    destruct (4 <? _)%Z eqn:H; [|lra].
    apply Z.ltb_lt in H. unfold PRICING.remote.overagePerHour.
    apply Qmult_le_0_compat; [|lra].
    change 0 with (inject_Z 0). rewrite <- Zle_Qle. lia.
Qed.

Lemma sumAmounts_filter (ls : list line) :
  sumAmounts (filter shown ls)
  == fold_right (fun l acc => visibleAmount l + acc) 0 ls.
Proof.
  induction ls as [|l ls IH]; simpl.
  - reflexivity.
  - unfold visibleAmount at 1. destruct (shown l); simpl; rewrite IH; lra.
Qed.

Lemma feeLine_amount (price : Q) (lbl : string) (l : line) :
  0 <= price -> visibleAmount (App.feeLine price lbl l) == price.
Proof.
  intros Hp. unfold visibleAmount, App.feeLine, App.positive.
  destruct (Qle_bool price 0) eqn:H; simpl.
  - apply Qle_bool_iff in H. lra.
  - reflexivity.
Qed.

Lemma documentsLine_amount (q : App.quote) (d : QuoteDom) :
  wellFormed q ->
  visibleAmount (documentsLine (App.updateQuoteDisplay q d))
  == App.additionalDocsPrice q.
Proof.
  intros W. unfold visibleAmount. simpl.
  destruct (App.isRemoteService q) eqn:R; simpl.
  - symmetry. apply (wf_remote q W R).
  - destruct (1 <? App.numDocs q)%Z eqn:N; simpl.
    + reflexivity.
    + symmetry. apply (wf_single q W N).
Qed.

Lemma updateQuoteDisplay_total (q : App.quote) (d : QuoteDom) :
  wellFormed q ->
  amountOf (totalPriceEl (App.updateQuoteDisplay q d))
  == sumAmounts (lines (App.updateQuoteDisplay q d)).
Proof.
  intros W. unfold lines.
  cbn [sumAmounts fold_right]. fold (sumAmounts
    (filter shown
       [documentsLine (App.updateQuoteDisplay q d);
        sessionOverageLine (App.updateQuoteDisplay q d);
        recordingLine (App.updateQuoteDisplay q d);
        complexityLine (App.updateQuoteDisplay q d);
        urgencyLine (App.updateQuoteDisplay q d);
        bookingUrgencyLine (App.updateQuoteDisplay q d);
        deliveryLine (App.updateQuoteDisplay q d);
        locationLine (App.updateQuoteDisplay q d)])).
  rewrite sumAmounts_filter. cbn [fold_right].
  rewrite (documentsLine_amount q d W).
  cbn [App.updateQuoteDisplay sessionOverageLine recordingLine complexityLine
       urgencyLine bookingUrgencyLine deliveryLine locationLine
       baseServiceLine totalPriceEl].
  rewrite !feeLine_amount by (apply W).
  unfold lineAmount, App.total. simpl. lra.
Qed.

(** *** The quote total *)

(** C1.  For every page, the total shown by [calculateQuote] equals the sum
    of the amounts of the lines of the quote summary that are on display,
    and it is the sum of the nine price components (base service, additional
    documents, session overage, recording add-ons, complexity add-ons,
    standard urgency, booking/timing, delivery, location). *)
Theorem total_is_sum_of_line_amounts (p : Page) :
  amountOf (totalPriceEl (quoteDom (App.calculateQuote p)))
  == sumAmounts (lines (quoteDom (App.calculateQuote p)))
  /\ amountOf (totalPriceEl (quoteDom (App.calculateQuote p)))
     == App.basePrice (App.buildQuote (controls p))
        + App.additionalDocsPrice (App.buildQuote (controls p))
        + App.sessionOveragePrice (App.buildQuote (controls p))
        + App.recordingPrice (App.buildQuote (controls p))
        + App.complexityPrice (App.buildQuote (controls p))
        + App.urgencyPrice (App.buildQuote (controls p))
        + App.bookingUrgencyPrice (App.buildQuote (controls p))
        + App.deliveryPrice (App.buildQuote (controls p))
        + App.locationPrice (App.buildQuote (controls p)).
Proof.
  split.
  - apply updateQuoteDisplay_total, buildQuote_wellFormed.
  - reflexivity.
Qed.

(** *** Exclusive add-ons *)

Lemma resolveExclusive_pair (A B : string) (group : list checkbox) :
  In (A, B) exclusivePairs ->
  App.resolveExclusive A true group = uncheckFirst B group /\ A <> B.
Proof.
  intros H. simpl in H.
  repeat (destruct H as [H|H];
          [injection H as <- <-; split; [reflexivity|discriminate]|]).
  contradiction.
Qed.

Lemma uncheckFirst_other (v w : string) (group : list checkbox) :
  w <> v ->
  In w (checkedValues (uncheckFirst v group)) <-> In w (checkedValues group).
Proof.
  intros Hwv. unfold checkedValues.
  induction group as [|cb rest IH]; simpl; [reflexivity|].
  destruct (String.eqb (cb_value cb) v) eqn:E.
  - apply String.eqb_eq in E. simpl.
    destruct (cb_checked cb); simpl; [|reflexivity].
    split; [tauto|]. intros [H|H]; [congruence|exact H].
  - simpl. destruct (cb_checked cb); simpl; rewrite ?IH; reflexivity.
Qed.

Lemma checkedValues_incl (group : list checkbox) (w : string) :
  In w (checkedValues group) -> In w (map cb_value group).
Proof.
  unfold checkedValues. rewrite !in_map_iff.
  intros [cb [E H]]. apply filter_In in H. exists cb. tauto.
Qed.

Lemma uncheckFirst_self (v : string) (group : list checkbox) :
  NoDup (map cb_value group) ->
  ~ In v (checkedValues (uncheckFirst v group)).
Proof.
  induction group as [|cb rest IH]; simpl; intros ND; [tauto|].
  inversion ND as [|x xs Hx ND']; subst.
  destruct (String.eqb (cb_value cb) v) eqn:E.
  - apply String.eqb_eq in E. subst v.
    unfold checkedValues. simpl. fold (checkedValues rest).
    intros H. apply Hx, checkedValues_incl, H.
  - apply String.eqb_neq in E.
    unfold checkedValues. simpl.
    destruct (cb_checked cb); simpl; fold (checkedValues (uncheckFirst v rest)).
    + intros [H|H]; [congruence|]. exact (IH ND' H).
    + exact (IH ND').
Qed.

Lemma click_values (i : nat) (group : list checkbox) :
  map cb_value (click i group) = map cb_value group.
Proof.
  revert i. induction group as [|cb rest IH]; intros [|i]; simpl;
    try reflexivity.
  f_equal. apply IH.
Qed.

Lemma click_nth (i : nat) (group : list checkbox) (cb : checkbox) :
  nth_error group i = Some cb ->
  nth_error (click i group) i
  = Some {| cb_value := cb_value cb; cb_checked := negb (cb_checked cb) |}.
Proof.
  revert i. induction group as [|c rest IH]; intros [|i]; simpl;
    try discriminate.
  - intros [= ->]. reflexivity.
  - apply IH.
Qed.

Lemma nth_checked (i : nat) (group : list checkbox) (cb : checkbox) :
  nth_error group i = Some cb -> cb_checked cb = true ->
  In (cb_value cb) (checkedValues group).
Proof.
  intros H C. unfold checkedValues. apply in_map, filter_In.
  split; [eapply nth_error_In; eassumption|exact C].
Qed.

(** C2.  For each exclusivity group and every state of the add-on checkboxes
    (one checkbox per identifier) in which member B is checked, a toggle that
    selects the other member A leaves A selected and B not selected. *)
Theorem exclusive_toggle_selects_one (p : Page) (i : nat) (A B : string) :
  In (A, B) exclusivePairs ->
  NoDup (map cb_value (addonsBoxes (controls p))) ->
  nth_error (addonsBoxes (controls p)) i
  = Some {| cb_value := A; cb_checked := false |} ->
  In B (checkedValues (addonsBoxes (controls p))) ->
  In A (checkedValues (addonsBoxes (controls (App.toggleAddon i p))))
  /\ ~ In B (checkedValues (addonsBoxes (controls (App.toggleAddon i p)))).
Proof.
  intros HAB ND Hi _.
  unfold App.toggleAddon, App.handleAddonChange.
  cbn [controls set_controls addonsBoxes set_addonsBoxes].
  rewrite (click_nth _ _ _ Hi).
  cbn [cb_value cb_checked negb App.calculateQuote controls set_quoteDom
       set_controls addonsBoxes set_addonsBoxes].
  destruct (resolveExclusive_pair A B (click i (addonsBoxes (controls p))) HAB)
    as [-> HneAB].
  split.
  - apply uncheckFirst_other; [exact HneAB|].
    apply (nth_checked i _ _ (click_nth _ _ _ Hi)). reflexivity.
  - apply uncheckFirst_self. rewrite click_values. exact ND.
Qed.

Lemma exclusive_toggle_selects_one_witness :
  In "audio_video"%string
    (checkedValues
       (addonsBoxes (controls
          (App.toggleAddon 1
             (Sample.page "remote" "" "" "1" "4" "standard" "pickup"
                ["audio"; "timestamp"]%string []))))) /\
  ~ In "audio"%string
    (checkedValues
       (addonsBoxes (controls
          (App.toggleAddon 1
             (Sample.page "remote" "" "" "1" "4" "standard" "pickup"
                ["audio"; "timestamp"]%string []))))).
Proof.
  apply (exclusive_toggle_selects_one _ 1%nat "audio_video" "audio")%string.
  - simpl. tauto.
  - vm_compute. repeat constructor; simpl; intuition discriminate.
  - reflexivity.
  - simpl. tauto.
Defined.

(** *** The timestamp waiver *)

Lemma recordingAddon_rate (av : bool) (acc : Q) (v : string) :
  App.recordingAddon av acc v == acc + recordingRate av v.
Proof.
  unfold recordingRate, App.recordingAddon.
  repeat match goal with
         | |- context [if ?b then _ else _] => destruct b
         end; lra.
Qed.

Lemma fold_recordingAddon_sum (av : bool) (vs : list string) :
  forall acc, fold_left (App.recordingAddon av) vs acc == acc + sumRates av vs.
Proof.
  induction vs as [|v vs IH]; intros acc; simpl.
  - lra.
  - rewrite IH, recordingAddon_rate. lra.
Qed.

Lemma sumRates_app (av : bool) (l1 l2 : list string) :
  sumRates av (l1 ++ l2) == sumRates av l1 + sumRates av l2.
Proof.
  induction l1 as [|v l1 IH]; simpl; [|rewrite IH]; lra.
Qed.

Lemma click_checked_split (i : nat) (group : list checkbox) (cb : checkbox) :
  nth_error group i = Some cb -> cb_checked cb = true ->
  exists l1 l2,
    checkedValues group = l1 ++ cb_value cb :: l2
    /\ checkedValues (click i group) = l1 ++ l2.
Proof.
  unfold checkedValues.
  revert i. induction group as [|c rest IH]; intros [|i]; simpl;
    try discriminate.
  - intros [= ->] C. rewrite C. simpl. exists [], (map cb_value (filter cb_checked rest)).
    split; reflexivity.
  - intros H C. destruct (IH i H C) as (l1 & l2 & E1 & E2).
    destruct (cb_checked c); simpl.
    + exists (cb_value c :: l1), l2. simpl. rewrite E1, E2. split; reflexivity.
    + exists l1, l2. split; assumption.
Qed.

Lemma hasValue_In (v : string) (values : list string) :
  hasValue v values = true <-> In v values.
Proof.
  unfold hasValue. rewrite existsb_exists. split.
  - intros [w [H E]]. apply String.eqb_eq in E. subst. exact H.
  - intros H. exists v. split; [exact H|apply String.eqb_refl].
Qed.

Lemma hasValue_remove (v w : string) (l1 l2 : list string) :
  String.eqb w v = false ->
  hasValue v (l1 ++ w :: l2) = hasValue v (l1 ++ l2).
Proof.
  intros E. unfold hasValue. rewrite !existsb_app. simpl. rewrite E.
  reflexivity.
Qed.

(** C3.  When the timestamp box is checked, unchecking it (everything else
    unchanged) lowers the recording add-ons amount by nothing if audio_video
    is among the checked add-ons, and by the catalog rate 49 if it is not;
    in particular the set audio_video, timestamp is priced 199 and the set
    audio, timestamp is priced 149 + 49. *)
Theorem timestamp_waived_with_audio_video (c : Controls) (i : nat) :
  nth_error (addonsBoxes c) i
  = Some {| cb_value := "timestamp"; cb_checked := true |} ->
  In "timestamp"%string (checkedValues (addonsBoxes c))
  /\ (In "audio_video"%string (checkedValues (addonsBoxes c)) ->
      App.calculateRecordingAddons c
      == App.calculateRecordingAddons
           (set_addonsBoxes (click i (addonsBoxes c)) c) + 0)
  /\ (~ In "audio_video"%string (checkedValues (addonsBoxes c)) ->
      App.calculateRecordingAddons c
      == App.calculateRecordingAddons
           (set_addonsBoxes (click i (addonsBoxes c)) c) + 49)
  /\ PRICING.recording.timestamp == 49.
Proof.
  intros Hi.
  split; [exact (nth_checked i _ _ Hi eq_refl)|].
  destruct (click_checked_split i _ _ Hi eq_refl) as (l1 & l2 & E1 & E2).
  cbn [cb_value] in E1.
  unfold App.calculateRecordingAddons.
  cbn [addonsBoxes set_addonsBoxes].
  fold (hasValue "audio_video" (checkedValues (addonsBoxes c))).
  fold (hasValue "audio_video" (checkedValues (click i (addonsBoxes c)))).
  rewrite !fold_recordingAddon_sum.
  rewrite E1, E2.
  rewrite (hasValue_remove "audio_video" "timestamp" l1 l2 eq_refl).
  rewrite !sumRates_app. cbn [sumRates fold_right].
  fold (sumRates (hasValue "audio_video" (l1 ++ l2)) l2).
  assert (HAV : hasValue "audio_video" (l1 ++ "timestamp"%string :: l2)
                = hasValue "audio_video" (l1 ++ l2))
    by (apply hasValue_remove; reflexivity).
  repeat split.
  - intros H. apply hasValue_In in H. rewrite HAV in H. rewrite H.
    unfold recordingRate.
    change (App.recordingAddon true 0 "timestamp") with 0. lra.
  - intros H. rewrite <- hasValue_In, HAV in H.
    destruct (hasValue "audio_video" (l1 ++ l2)); [congruence|].
    unfold recordingRate.
    change (App.recordingAddon false 0 "timestamp") with (0 + 49). lra.
Qed.

Lemma timestamp_waived_with_audio_video_witness :
  App.calculateRecordingAddons
    (controls (Sample.page "remote" "" "" "1" "4" "standard" "pickup"
                 ["audio_video"; "timestamp"]%string []))
  == 199
  /\ App.calculateRecordingAddons
       (controls (Sample.page "remote" "" "" "1" "4" "standard" "pickup"
                    ["audio"; "timestamp"]%string []))
     == 149 + 49.
Proof.
  split.
  - destruct (timestamp_waived_with_audio_video
                (controls (Sample.page "remote" "" "" "1" "4" "standard"
                             "pickup" ["audio_video"; "timestamp"]%string []))
                2%nat eq_refl) as (_ & H & _).
    rewrite H; [reflexivity|simpl; tauto].
  - destruct (timestamp_waived_with_audio_video
                (controls (Sample.page "remote" "" "" "1" "4" "standard"
                             "pickup" ["audio"; "timestamp"]%string []))
                2%nat eq_refl) as (_ & _ & H & _).
    rewrite H; [reflexivity|].
    simpl. intuition discriminate.
Defined.

(** *** Worked scenarios *)

(** C4.  With service type apostille, region nj, three documents, standard
    urgency and pickup, the additional-documents line is on display with the
    amount 2 * 447 * 0.85 = 759.90 and the total is 447 + 759.90 = 1206.90,
    both exact. *)
Theorem scenario_apostille_nj_three_documents (p : Page) :
  value (serviceTypeSelect (controls p)) = "apostille"%string ->
  value (regionSelect (controls p)) = "nj"%string ->
  value (numDocumentsInput (controls p)) = "3"%string ->
  firstCheckedValue (urgencyRadios (controls p)) = Some "standard"%string ->
  firstCheckedValue (deliveryRadios (controls p)) = Some "pickup"%string ->
  shown (documentsLine (quoteDom (App.calculateQuote p))) = true
  /\ content (documentsLine (quoteDom (App.calculateQuote p)))
     = Currency (App.additionalDocsPrice (App.buildQuote (controls p)))
  /\ App.additionalDocsPrice (App.buildQuote (controls p))
     == 2 * 447 * 0.85
  /\ lineAmount (documentsLine (quoteDom (App.calculateQuote p))) == 759.90
  /\ amountOf (totalPriceEl (quoteDom (App.calculateQuote p))) == 1206.90.
Proof.
  intros Hs Hr Hn Hu Hd.
  unfold App.calculateQuote, lineAmount.
  cbn [quoteDom set_quoteDom App.updateQuoteDisplay documentsLine
       totalPriceEl].
  unfold App.total, App.buildQuote.
  rewrite Hs, Hr, Hn, Hu, Hd.
  repeat split.
Qed.

Lemma scenario_apostille_nj_three_documents_witness :
  lineAmount (documentsLine (quoteDom (App.calculateQuote Sample.scenario1)))
  == 759.90
  /\ amountOf (totalPriceEl (quoteDom (App.calculateQuote Sample.scenario1)))
     == 1206.90.
Proof.
  destruct (scenario_apostille_nj_three_documents Sample.scenario1
              eq_refl eq_refl eq_refl eq_refl eq_refl) as (_ & _ & _ & H).
  exact H.
Defined.

(** C5.  With service type remote, six session hours, audio_video as the only
    checked add-on and rush_booking as the only checked booking option, the
    session-overage line shows (6 - 4) * 150 = 300, the recording line 199,
    the booking/timing line 125, and the total is 649 + 300 + 199 + 125 =
    1273. *)
Theorem scenario_remote_six_hours (p : Page) (hours : element) :
  value (serviceTypeSelect (controls p)) = "remote"%string ->
  sessionHoursSelect (controls p) = Some hours ->
  value hours = "6"%string ->
  checkedValues (addonsBoxes (controls p)) = ["audio_video"%string] ->
  checkedValues (remoteUrgencyBoxes (controls p)) = ["rush_booking"%string] ->
  sessionOverageLine (quoteDom (App.calculateQuote p))
  = {| display := "flex"; label := "Session Overage";
       content := Currency (inject_Z (6 - 4) * 150) |}
  /\ lineAmount (sessionOverageLine (quoteDom (App.calculateQuote p))) == 300
  /\ recordingLine (quoteDom (App.calculateQuote p))
     = {| display := "flex"; label := "Recording Add-ons";
          content := Currency (0 + 199) |}
  /\ bookingUrgencyLine (quoteDom (App.calculateQuote p))
     = {| display := "flex"; label := "Booking/Timing Fees";
          content := Currency (0 + 125) |}
  /\ amountOf (totalPriceEl (quoteDom (App.calculateQuote p)))
     == 649 + 300 + 199 + 125
  /\ amountOf (totalPriceEl (quoteDom (App.calculateQuote p))) == 1273.
Proof.
  intros Hs Hh Hv Ha Hb.
  unfold App.calculateQuote, lineAmount.
  cbn [quoteDom set_quoteDom App.updateQuoteDisplay sessionOverageLine
       recordingLine bookingUrgencyLine totalPriceEl].
  unfold App.total, App.buildQuote, App.calculateRecordingAddons,
    App.calculateComplexityAddons, App.calculateRemoteUrgency.
  rewrite Hs, Hh, Hv, Ha, Hb.
  repeat split.
Qed.

Lemma scenario_remote_six_hours_witness :
  amountOf (totalPriceEl (quoteDom (App.calculateQuote Sample.scenario3)))
  == 1273.
Proof.
  destruct (scenario_remote_six_hours Sample.scenario3
              (Sample.control "6") eq_refl eq_refl eq_refl eq_refl eq_refl)
    as (_ & _ & _ & _ & _ & H).
  exact H.
Defined.

(** *** Step validation *)

Lemma existsb_false {A : Type} (f : A -> bool) (l : list A) :
  (forall x, In x l -> f x = false) -> existsb f l = false.
Proof.
  induction l as [|a l IH]; simpl; intros H; [reflexivity|].
  rewrite (H a (or_introl eq_refl)). simpl. apply IH. intros x Hx.
  apply H. right. exact Hx.
Qed.

Lemma stepExists (n : Z) (steps : list Z) :
  In n steps -> existsb (Z.eqb n) steps = true.
Proof.
  intros H. apply existsb_exists. exists n. split; [exact H|apply Z.eqb_refl].
Qed.

Lemma validateField_value (n : Z) (f : element) :
  value (App.validateField n f) = value f.
Proof. unfold App.validateField. destruct (App.missing n f); reflexivity. Qed.

Lemma rejected_values (p : Page) :
  map value (App.fields (controls (rejected p)))
  = map value (App.fields (controls p)).
Proof.
  unfold rejected, App.fields, App.mapFields.
  cbn [controls set_controls set_notification set_regionSelect
       serviceTypeSelect regionSelect locationTypeSelect numDocumentsInput
       sessionHoursSelect otherFields map addError value].
  rewrite !validateField_value.
  do 4 f_equal.
  rewrite !map_app, map_map. f_equal.
  - destruct (sessionHoursSelect (controls p)); simpl;
      rewrite ?validateField_value; reflexivity.
  - apply map_ext. intros f. apply validateField_value.
Qed.

Lemma validateCurrentStep_region_unset (p : Page) :
  currentStep p = Some 1%Z ->
  In 1%Z (formSteps p) ->
  value (serviceTypeSelect (controls p)) = "apostille"%string ->
  value (regionSelect (controls p)) = ""%string ->
  App.validateCurrentStep p = Some (false, rejected p).
Proof.
  intros Hc Hs Ht Hr. unfold App.validateCurrentStep.
  rewrite Hc, (stepExists _ _ Hs), Ht, Hr. reflexivity.
Qed.

Lemma validateCurrentStep_complete (p : Page) (n : Z) :
  currentStep p = Some n ->
  In n (formSteps p) ->
  (forall f, In f (App.fields (controls p)) -> App.missing n f = false) ->
  value (regionSelect (controls p)) <> ""%string ->
  App.validateCurrentStep p
  = Some (true,
          set_controls (App.mapFields (App.validateField n) (controls p)) p).
Proof.
  intros Hc Hs Hf Hr. unfold App.validateCurrentStep.
  rewrite Hc, (stepExists _ _ Hs), (existsb_false _ _ Hf).
  apply String.eqb_neq in Hr. rewrite Hr, andb_false_r. reflexivity.
Qed.

(** C6.  From step 1, with service type apostille and no region, a click on
    the next button towards step 2 returns normally, leaves [currentStep] at
    1 and the field values and quote summary as they were, marks the region
    select with the error class and raises the error notification.  Once a
    region is then picked, and no other required field on display in step 1
    is empty, the same click moves to step 2. *)
Theorem advance_needs_region (p : Page) :
  currentStep p = Some 1%Z ->
  In 1%Z (formSteps p) ->
  value (serviceTypeSelect (controls p)) = "apostille"%string ->
  value (regionSelect (controls p)) = ""%string ->
  exists p1,
    App.btnNext "2" p = Some p1
    /\ currentStep p1 = currentStep p
    /\ map value (App.fields (controls p1))
       = map value (App.fields (controls p))
    /\ quoteDom p1 = quoteDom p
    /\ error (regionSelect (controls p1)) = true
    /\ notification p1
       = Some ("Please fill in all required fields", "error")%string
    /\ forall v : string,
         v <> ""%string ->
         (forall f, In f (App.fields (controls (App.changeRegion v p1))) ->
                    App.missing 1 f = false) ->
         exists p2,
           App.btnNext "2" (App.changeRegion v p1) = Some p2
           /\ currentStep p2 = Some 2%Z.
Proof.
  intros Hc Hs Ht Hr. exists (rejected p).
  unfold App.btnNext at 1.
  rewrite (validateCurrentStep_region_unset p Hc Hs Ht Hr).
  repeat split.
  { apply rejected_values. }
  intros v Hv Hf.
  unfold App.btnNext.
  rewrite (validateCurrentStep_complete (App.changeRegion v (rejected p)) 1);
    [eexists; split; reflexivity| exact Hc | exact Hs | exact Hf | exact Hv].
Qed.

Lemma advance_needs_region_witness :
  exists p1,
    App.btnNext "2" Sample.scenario4 = Some p1
    /\ currentStep p1 = Some 1%Z
    /\ error (regionSelect (controls p1)) = true
    /\ exists p2,
         App.btnNext "2" (App.changeRegion "nj" p1) = Some p2
         /\ currentStep p2 = Some 2%Z.
Proof.
  destruct (advance_needs_region Sample.scenario4 eq_refl
              (or_introl eq_refl) eq_refl eq_refl)
    as (p1 & E & Hc & _ & _ & He & _ & Hnext).
  exists p1. repeat split; try assumption.
  apply (Hnext "nj"%string); [discriminate|].
  injection E as <-.
  intros f Hf. simpl in Hf.
  repeat (destruct Hf as [<-|Hf]; [reflexivity|]). contradiction.
Defined.

(** *** Defensive defaults *)

Lemma not_in_eqb (s : string) (l : list string) :
  ~ In s l -> Forall (fun t => String.eqb s t = false) l.
Proof.
  intros H. apply Forall_forall. intros t Ht. apply String.eqb_neq.
  intros ->. exact (H Ht).
Qed.

(** C7.  For every service type the calculator has no case for, the empty
    initial value included, [calculateQuote] returns with the quote object
    left at its initial zeros and empty name: the base line reads
    [Base Service], every line on display has amount 0 and the total is 0. *)
Theorem unknown_service_type_quotes_zero (p : Page) :
  ~ In (value (serviceTypeSelect (controls p))) serviceTypes ->
  App.serviceName (App.buildQuote (controls p)) = ""%string
  /\ (App.basePrice (App.buildQuote (controls p)) = 0
      /\ App.additionalDocsPrice (App.buildQuote (controls p)) = 0
      /\ App.sessionOveragePrice (App.buildQuote (controls p)) = 0
      /\ App.recordingPrice (App.buildQuote (controls p)) = 0
      /\ App.complexityPrice (App.buildQuote (controls p)) = 0
      /\ App.urgencyPrice (App.buildQuote (controls p)) = 0
      /\ App.bookingUrgencyPrice (App.buildQuote (controls p)) = 0
      /\ App.deliveryPrice (App.buildQuote (controls p)) = 0
      /\ App.locationPrice (App.buildQuote (controls p)) = 0)
  /\ label (baseServiceLine (quoteDom (App.calculateQuote p)))
     = "Base Service"%string
  /\ Forall (fun l => lineAmount l == 0)
       (lines (quoteDom (App.calculateQuote p)))
  /\ amountOf (totalPriceEl (quoteDom (App.calculateQuote p))) == 0.
Proof.
  intros H. apply not_in_eqb in H. unfold serviceTypes in H.
  repeat match goal with
         | H : Forall _ (_ :: _) |- _ => inversion_clear H
         end.
  unfold App.calculateQuote, lines.
  cbn [quoteDom set_quoteDom].
  unfold App.buildQuote.
  repeat match goal with
         | E : String.eqb _ _ = false |- _ => rewrite E; clear E
         end.
  cbn [App.updateQuoteDisplay App.serviceName App.basePrice
       App.additionalDocsPrice App.sessionOveragePrice App.recordingPrice
       App.complexityPrice App.urgencyPrice App.bookingUrgencyPrice
       App.deliveryPrice App.locationPrice App.isRemoteService App.numDocs
       baseServiceLine documentsLine sessionOverageLine recordingLine
       complexityLine urgencyLine bookingUrgencyLine deliveryLine
       locationLine totalPriceEl label].
  repeat split.
  change (App.feeLine 0) with
    (fun (lbl : string) (l : line) =>
       {| display := "none"; label := label l; content := content l |}).
  cbv beta.
  destruct (1 <? _)%Z; cbn; repeat constructor.
Qed.

Lemma unknown_service_type_quotes_zero_witness :
  amountOf
    (totalPriceEl
       (quoteDom
          (App.calculateQuote
             (Sample.page "" "nj" "mobile" "3" "6" "rush" "express"
                ["audio"]%string ["after_hours"]%string)))) == 0.
Proof.
  apply (unknown_service_type_quotes_zero
           (Sample.page "" "nj" "mobile" "3" "6" "rush" "express"
              ["audio"]%string ["after_hours"]%string)).
  simpl. intuition discriminate.
Defined.


(** Leading white space outside ASCII is skipped as well: a no-break space
    (U+00A0, the bytes C2 A0) before the digit 7 reads as 7. *)
Lemma parseInt_skips_no_break_space :
  JS.parseInt (String (ascii_of_nat 194) (String (ascii_of_nat 160) "7"))
  = Some 7%Z.
Proof. reflexivity. Qed.




(** *** Remote depositions ignore documents, urgency and delivery *)

(** C9.  With service type remote, typing any text in the documents input,
    leaving the urgency radios in any state or leaving the delivery radios
    in any state, one at a time or all three together, gives the same quote
    summary (every line and the total) as before the change. *)
Theorem remote_quote_ignores_documents_urgency_delivery
    (p : Page) (docs : string) (urgencyState deliveryState : list checkbox) :
  value (serviceTypeSelect (controls p)) = "remote"%string ->
  quoteDom (App.changeNumDocuments docs p) = quoteDom (App.calculateQuote p)
  /\ quoteDom (App.changeUrgency urgencyState p)
     = quoteDom (App.calculateQuote p)
  /\ quoteDom (App.changeDelivery deliveryState p)
     = quoteDom (App.calculateQuote p)
  /\ quoteDom
       (App.changeDelivery deliveryState
          (App.changeUrgency urgencyState (App.changeNumDocuments docs p)))
     = quoteDom (App.calculateQuote p).
Proof.
  intros Hs.
  unfold App.changeNumDocuments, App.changeUrgency, App.changeDelivery,
    App.calculateQuote.
  cbn [quoteDom set_quoteDom controls set_controls].
  unfold App.buildQuote, App.calculateRecordingAddons,
    App.calculateComplexityAddons, App.calculateRemoteUrgency.
  cbn [serviceTypeSelect regionSelect locationTypeSelect numDocumentsInput
       sessionHoursSelect urgencyRadios deliveryRadios addonsBoxes
       remoteUrgencyBoxes set_numDocumentsInput set_urgencyRadios
       set_deliveryRadios value set_value].
  rewrite Hs.
  cbn [String.eqb Ascii.eqb Bool.eqb].
  unfold App.updateQuoteDisplay, App.total.
  cbn [App.assign App.serviceName App.basePrice App.additionalDocsPrice
       App.sessionOveragePrice App.recordingPrice App.complexityPrice
       App.urgencyPrice App.bookingUrgencyPrice App.deliveryPrice
       App.locationPrice App.isRemoteService App.numDocs App.urgency
       App.delivery App.locationType].
  change (App.feeLine 0) with
    (fun (lbl : string) (l : line) =>
       {| display := "none"; label := label l; content := content l |}).
  cbv beta.
  cbn [sessionOverageLine recordingLine complexityLine urgencyLine
       bookingUrgencyLine deliveryLine locationLine documentsLine
       baseServiceLine display label content].
  repeat split.
  unfold App.feeLine.
  repeat match goal with
         | |- context [App.positive ?x] => destruct (App.positive x)
         end;
    reflexivity.
Qed.

Lemma remote_quote_ignores_documents_urgency_delivery_witness :
  quoteDom
    (App.changeDelivery (Sample.boxes ["pickup"; "express"] ["express"])%string
       (App.changeUrgency (Sample.boxes ["standard"; "rush"] ["rush"])%string
          (App.changeNumDocuments "12" Sample.scenario3)))
  = quoteDom (App.calculateQuote Sample.scenario3).
Proof.
  apply (remote_quote_ignores_documents_urgency_delivery Sample.scenario3
           "12" (Sample.boxes ["standard"; "rush"] ["rush"])%string
           (Sample.boxes ["pickup"; "express"] ["express"])%string eq_refl).
Defined.

(** *** The older calculator *)

(** C10.  For every page whose service type is apostille, poa, trust, loan
    or hospital, whatever the region, documents, location, urgency and
    delivery, the total shown by the older calculator equals the total shown
    by the current one. *)
Theorem legacy_total_agrees (p : Page) :
  In (value (serviceTypeSelect (controls p))) notaryServiceTypes ->
  amountOf (totalPriceEl (quoteDom (Legacy.calculateQuote p)))
  == amountOf (totalPriceEl (quoteDom (App.calculateQuote p))).
Proof.
  intros H. simpl in H.
  unfold Legacy.calculateQuote, App.calculateQuote.
  cbn [quoteDom set_quoteDom Legacy.updateQuoteDisplay
       App.updateQuoteDisplay totalPriceEl amountOf].
  unfold Legacy.buildQuote, App.buildQuote, Legacy.total, App.total,
    Legacy.perDocCharge, App.perDocCharge.
  change Legacy.PRICING.apostille with PRICING.apostille.
  change Legacy.PRICING.urgency with PRICING.urgency.
  change Legacy.PRICING.delivery with PRICING.delivery.
  change Legacy.PRICING.location with PRICING.location.
  change Legacy.PRICING.additionalDocDiscount
    with PRICING.additionalDocDiscount.
  repeat (destruct H as [H|H];
          [rewrite <- H;
           cbn [String.eqb Ascii.eqb Bool.eqb App.assign
                Legacy.basePrice Legacy.additionalDocsPrice
                Legacy.urgencyPrice Legacy.deliveryPrice
                Legacy.locationPrice App.basePrice App.additionalDocsPrice
                App.sessionOveragePrice App.recordingPrice
                App.complexityPrice App.urgencyPrice
                App.bookingUrgencyPrice App.deliveryPrice App.locationPrice
                Legacy.PRICING.base Legacy.PRICING.perDoc
                Legacy.PRICING.poa Legacy.PRICING.trust Legacy.PRICING.loan
                Legacy.PRICING.hospital PRICING.base PRICING.perDoc
                PRICING.poa PRICING.trust PRICING.loan PRICING.hospital];
           lra|]).
  contradiction.
Qed.

Lemma legacy_total_agrees_witness :
  amountOf (totalPriceEl (quoteDom (Legacy.calculateQuote Sample.scenario2)))
  == amountOf (totalPriceEl (quoteDom (App.calculateQuote Sample.scenario2))).
Proof.
  apply (legacy_total_agrees Sample.scenario2). simpl. tauto.
Defined.

(* ================================================================== *)
(** ** Further properties of the calculator *)

Lemma feeLine_twice (price : Q) (lbl : string) (l : line) :
  App.feeLine price lbl (App.feeLine price lbl l) = App.feeLine price lbl l.
Proof. unfold App.feeLine. destruct (App.positive price); reflexivity. Qed.

Lemma updateQuoteDisplay_twice (q : App.quote) (d : QuoteDom) :
  App.updateQuoteDisplay q (App.updateQuoteDisplay q d)
  = App.updateQuoteDisplay q d.
Proof.
  unfold App.updateQuoteDisplay.
  cbn [baseServiceLine documentsLine sessionOverageLine recordingLine
       complexityLine urgencyLine bookingUrgencyLine deliveryLine
       locationLine totalPriceEl display].
  rewrite !feeLine_twice.
  destruct (App.isRemoteService q); [reflexivity|].
  destruct (1 <? App.numDocs q)%Z; reflexivity.
Qed.

(** X1.  Recomputing the quote on an unchanged page changes nothing: the
    page after two calls of [calculateQuote] is the page after one, lines
    that are hidden included. *)
Theorem calculateQuote_idempotent (p : Page) :
  App.calculateQuote (App.calculateQuote p) = App.calculateQuote p.
Proof.
  unfold App.calculateQuote.
  cbn [controls quoteDom set_quoteDom].
  rewrite updateQuoteDisplay_twice. reflexivity.
Qed.

Lemma apostille_nonneg : nonnegTable PRICING.apostille.
Proof. table_nonneg. Qed.

Lemma perDocCharge_nonneg (n : Z) (rate : Q) :
  0 <= rate -> 0 <= App.perDocCharge n rate.
Proof.
  intros Hr. unfold App.perDocCharge.
  destruct (1 <? n)%Z eqn:H; [|lra].
  apply Z.ltb_lt in H. apply Qmult_le_0_compat; [|exact Hr].
  change 0 with (inject_Z 0). rewrite <- Zle_Qle. lia.
Qed.

Lemma buildQuote_base_nonneg (c : Controls) :
  0 <= App.basePrice (App.buildQuote c)
  /\ 0 <= App.additionalDocsPrice (App.buildQuote c).
Proof.
  unfold App.buildQuote.
  repeat match goal with
         | |- context [if String.eqb (value (serviceTypeSelect c)) ?b
                       then _ else _] =>
             destruct (String.eqb (value (serviceTypeSelect c)) b)
         end;
    cbn [App.assign App.basePrice App.additionalDocsPrice];
    try (split; first [ apply perDocCharge_nonneg; cbn; lra
                      | cbn; lra
                      | vm_compute; discriminate ]).
  pose proof (numOr0_nonneg PRICING.apostille (value (regionSelect c))
                apostille_nonneg) as Hb.
  destruct (_ && _); [|split; lra].
  split; [exact Hb|].
  destruct (1 <? _)%Z eqn:H; [|lra].
  apply Z.ltb_lt in H. apply Qmult_le_0_compat.
  - change 0 with (inject_Z 0). rewrite <- Zle_Qle. lia.
  - apply Qmult_le_0_compat; [exact Hb|].
    unfold PRICING.additionalDocDiscount. lra.
Qed.

Lemma feeLine_shown_nonneg (price : Q) (lbl : string) (l : line) :
  shown (App.feeLine price lbl l) = true ->
  0 <= lineAmount (App.feeLine price lbl l).
Proof.
  unfold App.feeLine, App.positive.
  destruct (Qle_bool price 0) eqn:H; simpl; [discriminate|].
  intros _. unfold lineAmount. simpl.
  destruct (Qlt_le_dec 0 price) as [Hlt|Hle]; [lra|].
  apply Qle_bool_iff in Hle. congruence.
Qed.

(** X2.  For every page whose looked-up keys are none of the inherited
    member names, every line of the quote summary on display has a
    non-negative amount, and so has the total. *)
Theorem quote_amounts_nonneg (p : Page) :
  catalogKeys (controls p) ->
  Forall (fun l => 0 <= lineAmount l)
    (lines (quoteDom (App.calculateQuote p)))
  /\ 0 <= amountOf (totalPriceEl (quoteDom (App.calculateQuote p))).
Proof.
  intros _.
  destruct (buildQuote_base_nonneg (controls p)) as [Hb Hd].
  pose proof (buildQuote_wellFormed (controls p)) as W.
  split.
  - unfold lines. constructor; [exact Hb|].
    apply Forall_forall. intros l Hl. apply filter_In in Hl.
    destruct Hl as [Hl Hs]. simpl in Hl.
    unfold App.calculateQuote in *.
    cbn [quoteDom set_quoteDom App.updateQuoteDisplay documentsLine
         sessionOverageLine recordingLine complexityLine urgencyLine
         bookingUrgencyLine deliveryLine locationLine] in Hl.
    destruct Hl as [<-|Hl].
    { destruct (App.isRemoteService _); [discriminate|].
      destruct (1 <? _)%Z; unfold lineAmount; simpl; [exact Hd|lra]. }
    repeat (destruct Hl as [<-|Hl];
            [apply feeLine_shown_nonneg; exact Hs|]).
    contradiction.
  - unfold App.calculateQuote.
    cbn [quoteDom set_quoteDom App.updateQuoteDisplay totalPriceEl amountOf].
    unfold App.total.
    pose proof (wf_overage _ W). pose proof (wf_recording _ W).
    pose proof (wf_complexity _ W). pose proof (wf_urgency _ W).
    pose proof (wf_booking _ W). pose proof (wf_delivery _ W).
    pose proof (wf_location _ W). lra.
Qed.

Lemma quote_amounts_nonneg_witness :
  Forall (fun l => 0 <= lineAmount l)
    (lines (quoteDom (App.calculateQuote Sample.scenario3)))
  /\ 0 <= amountOf
            (totalPriceEl (quoteDom (App.calculateQuote Sample.scenario3))).
Proof.
  apply (quote_amounts_nonneg Sample.scenario3). catalog_keys.
Defined.

Lemma intOr_some (n d : Z) :
  JS.intOr (Some n) d = if (n =? 0)%Z then d else n.
Proof. destruct n; reflexivity. Qed.

Lemma surcharge_max (d n : Z) (r : Q) :
  (if (d <? JS.intOr (Some n) d)%Z
   then inject_Z (JS.intOr (Some n) d - d) * r else 0)
  == inject_Z (Z.max 0 (JS.intOr (Some n) d - d)) * r.
Proof.
  destruct (d <? JS.intOr (Some n) d)%Z eqn:H.
  - apply Z.ltb_lt in H. rewrite Z.max_r by lia. reflexivity.
  - apply Z.ltb_ge in H. rewrite Z.max_l by lia.
    change (inject_Z 0) with 0. lra.
Qed.

Lemma surcharge_mono (d n1 n2 : Z) (r : Q) :
  (0 <= d)%Z -> 0 <= r -> (n1 <= n2)%Z ->
  (if (d <? JS.intOr (Some n1) d)%Z
   then inject_Z (JS.intOr (Some n1) d - d) * r else 0)
  <= (if (d <? JS.intOr (Some n2) d)%Z
      then inject_Z (JS.intOr (Some n2) d - d) * r else 0).
Proof.
  intros Hd Hr Hn. rewrite !surcharge_max.
  apply Qmult_le_compat_r; [|exact Hr].
  rewrite <- Zle_Qle. rewrite !intOr_some.
  destruct (n1 =? 0)%Z eqn:E1; destruct (n2 =? 0)%Z eqn:E2;
    rewrite ?Z.eqb_eq, ?Z.eqb_neq in *; lia.
Qed.

(** X3.  For every page whose looked-up keys are none of the inherited
    member names, and any two texts of the documents input that [parseInt]
    reads as integers, the smaller count never gives the larger total. *)
Theorem more_documents_never_cheaper (p : Page) (s1 s2 : string) (n1 n2 : Z) :
  catalogKeys (controls p) ->
  JS.parseInt s1 = Some n1 ->
  JS.parseInt s2 = Some n2 ->
  (n1 <= n2)%Z ->
  amountOf (totalPriceEl (quoteDom (App.changeNumDocuments s1 p)))
  <= amountOf (totalPriceEl (quoteDom (App.changeNumDocuments s2 p))).
Proof.
  intros _ H1 H2 Hn.
  unfold App.changeNumDocuments, App.calculateQuote.
  cbn [quoteDom set_quoteDom controls set_controls App.updateQuoteDisplay
       totalPriceEl amountOf].
  unfold App.buildQuote, App.calculateRecordingAddons,
    App.calculateComplexityAddons, App.calculateRemoteUrgency, App.total,
    App.perDocCharge.
  cbn [serviceTypeSelect regionSelect locationTypeSelect numDocumentsInput
       sessionHoursSelect urgencyRadios deliveryRadios addonsBoxes
       remoteUrgencyBoxes set_numDocumentsInput value set_value].
  rewrite H1, H2.
  assert (M : forall r, 0 <= r ->
            (if (1 <? JS.intOr (Some n1) 1)%Z
             then inject_Z (JS.intOr (Some n1) 1 - 1) * r else 0)
            <= (if (1 <? JS.intOr (Some n2) 1)%Z
                then inject_Z (JS.intOr (Some n2) 1 - 1) * r else 0))
    by (intros r Hr; apply surcharge_mono; [lia|exact Hr|exact Hn]).
  repeat match goal with
         | |- context [String.eqb (value (serviceTypeSelect (controls p))) ?b] =>
             destruct (String.eqb (value (serviceTypeSelect (controls p))) b)
         end;
    cbn [App.assign App.basePrice App.additionalDocsPrice
         App.sessionOveragePrice App.recordingPrice App.complexityPrice
         App.urgencyPrice App.bookingUrgencyPrice App.deliveryPrice
         App.locationPrice PRICING.base PRICING.perDoc PRICING.poa
         PRICING.trust PRICING.loan PRICING.hospital];
    try lra;
    try (match goal with
         | |- context [inject_Z _ * ?r] =>
             let H := fresh in
             assert (H : 0 <= r) by lra; specialize (M r H); lra
         end).
  pose proof (numOr0_nonneg PRICING.apostille
                (value (regionSelect (controls p))) apostille_nonneg) as Hb.
  destruct (_ && _); [|lra].
  assert (Hr : 0 <= JS.numOr0
                      (JS.lookup (value (regionSelect (controls p)))
                         PRICING.apostille)
                    * (1 - PRICING.additionalDocDiscount)).
  { apply Qmult_le_0_compat; [exact Hb|].
    unfold PRICING.additionalDocDiscount. lra. }
  specialize (M _ Hr). lra.
Qed.

Lemma more_documents_never_cheaper_witness :
  amountOf (totalPriceEl (quoteDom (App.changeNumDocuments "-2" Sample.scenario2)))
  == 230
  /\ amountOf
       (totalPriceEl (quoteDom (App.changeNumDocuments "5" Sample.scenario2)))
     == 330
  /\ amountOf
       (totalPriceEl (quoteDom (App.changeNumDocuments "-2" Sample.scenario2)))
     <= amountOf
          (totalPriceEl (quoteDom (App.changeNumDocuments "5" Sample.scenario2))).
Proof.
  split; [reflexivity|split; [reflexivity|]].
  apply (more_documents_never_cheaper Sample.scenario2 "-2" "5" (-2) 5);
    [catalog_keys|reflexivity|reflexivity|lia].
Defined.

(** X4.  For every page whose looked-up keys are none of the inherited
    member names, and any two texts of the session-hours select that
    [parseInt] reads as integers, the shorter session never gives the larger
    total; and for every service type other than remote the two quote
    summaries are equal, line by line and in total. *)
Theorem longer_session_never_cheaper (p : Page) (s1 s2 : string) (n1 n2 : Z) :
  catalogKeys (controls p) ->
  JS.parseInt s1 = Some n1 ->
  JS.parseInt s2 = Some n2 ->
  (n1 <= n2)%Z ->
  amountOf (totalPriceEl (quoteDom (Form.changeSessionHours s1 p)))
  <= amountOf (totalPriceEl (quoteDom (Form.changeSessionHours s2 p)))
  /\ (value (serviceTypeSelect (controls p)) <> "remote"%string ->
      quoteDom (Form.changeSessionHours s1 p)
      = quoteDom (Form.changeSessionHours s2 p)).
Proof.
  intros _ H1 H2 Hn. split.
  2: { intros Hne. apply String.eqb_neq in Hne.
       unfold Form.changeSessionHours, App.calculateQuote.
       cbn [quoteDom set_quoteDom controls set_controls].
       unfold App.buildQuote, App.calculateRecordingAddons,
         App.calculateComplexityAddons, App.calculateRemoteUrgency.
       cbn [serviceTypeSelect regionSelect locationTypeSelect
            numDocumentsInput sessionHoursSelect urgencyRadios
            deliveryRadios addonsBoxes remoteUrgencyBoxes
            Form.set_sessionHoursSelect].
       rewrite Hne. reflexivity. }
  unfold Form.changeSessionHours, App.calculateQuote.
  cbn [quoteDom set_quoteDom controls set_controls App.updateQuoteDisplay
       totalPriceEl amountOf].
  unfold App.buildQuote, App.calculateRecordingAddons,
    App.calculateComplexityAddons, App.calculateRemoteUrgency, App.total.
  cbn [serviceTypeSelect regionSelect locationTypeSelect numDocumentsInput
       sessionHoursSelect urgencyRadios deliveryRadios addonsBoxes
       remoteUrgencyBoxes Form.set_sessionHoursSelect].
  destruct (sessionHoursSelect (controls p)) as [e|];
    cbn [option_map value set_value]; [rewrite H1, H2|].
  - pose proof (surcharge_mono 4 n1 n2 PRICING.remote.overagePerHour
                  ltac:(lia) ltac:(vm_compute; discriminate) Hn) as M.
    repeat match goal with
           | |- context [String.eqb (value (serviceTypeSelect (controls p))) ?b] =>
               destruct (String.eqb (value (serviceTypeSelect (controls p))) b)
           end;
      cbn [App.assign App.basePrice App.additionalDocsPrice
           App.sessionOveragePrice App.recordingPrice App.complexityPrice
           App.urgencyPrice App.bookingUrgencyPrice App.deliveryPrice
           App.locationPrice];
      lra.
  - lra.
Qed.

Lemma longer_session_never_cheaper_witness :
  (amountOf
     (totalPriceEl (quoteDom (Form.changeSessionHours "3" Sample.scenario3)))
   == 973
   /\ amountOf
        (totalPriceEl (quoteDom (Form.changeSessionHours "8" Sample.scenario3)))
      == 1573
   /\ amountOf
        (totalPriceEl (quoteDom (Form.changeSessionHours "3" Sample.scenario3)))
      <= amountOf
           (totalPriceEl
              (quoteDom (Form.changeSessionHours "8" Sample.scenario3))))
  /\ quoteDom (Form.changeSessionHours "3" Sample.scenario2)
     = quoteDom (Form.changeSessionHours "8" Sample.scenario2).
Proof.
  split; [split; [reflexivity|split; [reflexivity|]]|].
  - apply (longer_session_never_cheaper Sample.scenario3 "3" "8" 3 8);
      [catalog_keys|reflexivity|reflexivity|lia].
  - apply (longer_session_never_cheaper Sample.scenario2 "3" "8" 3 8);
      [catalog_keys|reflexivity|reflexivity|lia|discriminate].
Defined.

(** X5.  For an apostille whose region is neither a key of the price table
    nor an inherited member name (the empty initial value included), the
    other looked-up keys being none of the inherited names either, the base
    price and the additional documents are 0 whatever the number of
    documents, and the total is the urgency fee plus the delivery fee. *)
Theorem apostille_without_known_region (p : Page) :
  catalogKeys (controls p) ->
  value (serviceTypeSelect (controls p)) = "apostille"%string ->
  JS.lookup (value (regionSelect (controls p))) PRICING.apostille = None ->
  App.basePrice (App.buildQuote (controls p)) = 0
  /\ App.additionalDocsPrice (App.buildQuote (controls p)) = 0
  /\ content (baseServiceLine (quoteDom (App.calculateQuote p))) = Currency 0
  /\ amountOf (totalPriceEl (quoteDom (App.calculateQuote p)))
     == App.urgencyPrice (App.buildQuote (controls p))
        + App.deliveryPrice (App.buildQuote (controls p)).
Proof.
  intros _ Hs Hr.
  unfold App.calculateQuote.
  cbn [quoteDom set_quoteDom App.updateQuoteDisplay baseServiceLine
       totalPriceEl amountOf content].
  unfold App.total, App.buildQuote.
  rewrite Hs, Hr.
  cbn [String.eqb Ascii.eqb Bool.eqb JS.truthy andb].
  rewrite andb_false_r.
  cbn [App.assign App.basePrice App.additionalDocsPrice
       App.sessionOveragePrice App.recordingPrice App.complexityPrice
       App.urgencyPrice App.bookingUrgencyPrice App.deliveryPrice
       App.locationPrice].
  repeat split. lra.
Qed.

Lemma apostille_without_known_region_witness :
  amountOf
    (totalPriceEl
       (quoteDom
          (App.calculateQuote
             (Sample.page "apostille" "ny" "" "4" "4" "rush" "express" [] []))))
  == 150 + 35.
Proof.
  destruct (apostille_without_known_region
              (Sample.page "apostille" "ny" "" "4" "4" "rush" "express" [] [])
              ltac:(catalog_keys) eq_refl eq_refl) as (_ & _ & _ & H).
  rewrite H. reflexivity.
Defined.

Lemma isRemoteType_cases (s : string) :
  Form.isRemoteType s = true ->
  s = "remote"%string \/ s = "recording_only"%string
  \/ s = "certified_reporter"%string.
Proof.
  unfold Form.isRemoteType. simpl. rewrite !orb_true_iff, !String.eqb_eq.
  intuition discriminate.
Qed.

Lemma isRemoteType_not (s : string) :
  Form.isRemoteType s = false ->
  String.eqb s "remote" = false /\ String.eqb s "recording_only" = false
  /\ String.eqb s "certified_reporter" = false.
Proof.
  unfold Form.isRemoteType. simpl. rewrite !orb_false_iff. tauto.
Qed.

(** X6.  When the service type is none of remote, recording_only and
    certified_reporter, the quote object depends only on the service type,
    the region, the location type, the text of the documents input and the
    checked urgency and delivery radios: two states of the controls that
    agree on these give the same quote object and the same summary,
    whatever their add-on boxes, booking boxes and session hours. *)
Theorem notary_quote_reads_only_notary_inputs (c c' : Controls) (d : QuoteDom) :
  Form.isRemoteType (value (serviceTypeSelect c)) = false ->
  value (serviceTypeSelect c') = value (serviceTypeSelect c) ->
  value (regionSelect c') = value (regionSelect c) ->
  value (locationTypeSelect c') = value (locationTypeSelect c) ->
  value (numDocumentsInput c') = value (numDocumentsInput c) ->
  firstCheckedValue (urgencyRadios c') = firstCheckedValue (urgencyRadios c) ->
  firstCheckedValue (deliveryRadios c') = firstCheckedValue (deliveryRadios c) ->
  App.buildQuote c' = App.buildQuote c
  /\ App.updateQuoteDisplay (App.buildQuote c') d
     = App.updateQuoteDisplay (App.buildQuote c) d.
Proof.
  intros Hn Hs Hr Hl Hd Hu Hv.
  destruct (isRemoteType_not _ Hn) as (E1 & E2 & E3).
  assert (E : App.buildQuote c' = App.buildQuote c).
  { unfold App.buildQuote.
    rewrite Hs, Hr, Hl, Hd, Hu, Hv, E1, E2, E3. reflexivity. }
  rewrite E. split; reflexivity.
Qed.

Lemma notary_quote_reads_only_notary_inputs_witness :
  App.buildQuote
    (controls (Sample.page "poa" "" "mobile" "2" "8" "rush" "pickup"
                 ["audio"; "interpreter"]%string ["after_hours"]%string))
  = App.buildQuote
      (controls (Sample.page "poa" "" "mobile" "2" "4" "rush" "pickup" [] [])).
Proof.
  apply (notary_quote_reads_only_notary_inputs _ _ Sample.blankQuote);
    reflexivity.
Defined.

Lemma sessionHours_text (o : option element) :
  match o with Some e => JS.parseInt (value e) | None => None end
  = match option_map value o with Some v => JS.parseInt v | None => None end.
Proof. destruct o; reflexivity. Qed.

(** X7.  When the service type is remote, recording_only or
    certified_reporter, the quote summary depends only on the service type,
    the session hours, the checked add-ons and the checked booking options:
    two states of the controls that agree on these give the same summary,
    whatever their region, location, documents, urgency and delivery. *)
Theorem remote_quote_reads_only_remote_inputs (c c' : Controls) (d : QuoteDom) :
  Form.isRemoteType (value (serviceTypeSelect c)) = true ->
  value (serviceTypeSelect c') = value (serviceTypeSelect c) ->
  option_map value (sessionHoursSelect c')
  = option_map value (sessionHoursSelect c) ->
  checkedValues (addonsBoxes c') = checkedValues (addonsBoxes c) ->
  checkedValues (remoteUrgencyBoxes c')
  = checkedValues (remoteUrgencyBoxes c) ->
  App.updateQuoteDisplay (App.buildQuote c') d
  = App.updateQuoteDisplay (App.buildQuote c) d.
Proof.
  intros Hn Hs Hh Ha Hb.
  unfold App.buildQuote, App.calculateRecordingAddons,
    App.calculateComplexityAddons, App.calculateRemoteUrgency.
  rewrite !sessionHours_text, Hs, Hh, Ha, Hb.
  destruct (isRemoteType_cases _ Hn) as [E|[E|E]]; rewrite E;
    cbn [String.eqb Ascii.eqb Bool.eqb];
    unfold App.updateQuoteDisplay, App.total;
    cbn [App.assign App.serviceName App.basePrice App.additionalDocsPrice
         App.sessionOveragePrice App.recordingPrice App.complexityPrice
         App.urgencyPrice App.bookingUrgencyPrice App.deliveryPrice
         App.locationPrice App.isRemoteService App.numDocs App.urgency
         App.delivery App.locationType];
    change (App.feeLine 0) with
      (fun (lbl : string) (l : line) =>
         {| display := "none"; label := label l; content := content l |});
    reflexivity.
Qed.

Lemma remote_quote_reads_only_remote_inputs_witness :
  App.updateQuoteDisplay
    (App.buildQuote
       (controls (Sample.page "recording_only" "nj" "mobile" "9" "6" "rush"
                    "express" ["audio"]%string ["after_hours"]%string)))
    Sample.blankQuote
  = App.updateQuoteDisplay
      (App.buildQuote
         (controls (Sample.page "recording_only" "" "" "1" "6" "standard"
                      "pickup" ["audio"]%string ["after_hours"]%string)))
      Sample.blankQuote.
Proof.
  apply remote_quote_reads_only_remote_inputs; reflexivity.
Defined.

(** X8.  No add-on identifier is charged twice: an identifier that the
    complexity table prices adds nothing to the recording amount, with or
    without audio_video. *)
Theorem addon_is_recording_or_complexity (v : string) (hasAudioVideo : bool) :
  JS.lookup v PRICING.complexity = None
  \/ App.recordingAddon hasAudioVideo 0 v = 0.
Proof.
  unfold App.recordingAddon.
  repeat match goal with
         | |- context [if String.eqb v ?k then _ else _] =>
             let E := fresh "E" in
             destruct (String.eqb v k) eqn:E;
             [apply String.eqb_eq in E; subst v; left; reflexivity|]
         end.
  right. reflexivity.
Qed.

(* ================================================================== *)
(** ** Further properties of the add-on handler *)

Lemma resolveExclusive_unchecked (v : string) (group : list checkbox) :
  App.resolveExclusive v false group = group.
Proof.
  unfold App.resolveExclusive. rewrite !andb_false_r. reflexivity.
Qed.

Lemma resolveExclusive_cases (v : string) (group : list checkbox) :
  App.resolveExclusive v true group = group
  \/ exists B, In (v, B) exclusivePairs
               /\ App.resolveExclusive v true group = uncheckFirst B group.
Proof.
  destruct (String.eqb v "audio") eqn:E1;
    [apply String.eqb_eq in E1; subst v; right; exists "audio_video"%string;
     split; [simpl; tauto|reflexivity]|].
  destruct (String.eqb v "audio_video") eqn:E2;
    [apply String.eqb_eq in E2; subst v; right; exists "audio"%string;
     split; [simpl; tauto|reflexivity]|].
  destruct (String.eqb v "same_day_delivery") eqn:E3;
    [apply String.eqb_eq in E3; subst v; right;
     exists "24hr_delivery"%string; split; [simpl; tauto|reflexivity]|].
  destruct (String.eqb v "24hr_delivery") eqn:E4;
    [apply String.eqb_eq in E4; subst v; right;
     exists "same_day_delivery"%string; split; [simpl; tauto|reflexivity]|].
  destruct (String.eqb v "archive_monthly") eqn:E5;
    [apply String.eqb_eq in E5; subst v; right;
     exists "archive_yearly"%string; split; [simpl; tauto|reflexivity]|].
  destruct (String.eqb v "archive_yearly") eqn:E6;
    [apply String.eqb_eq in E6; subst v; right;
     exists "archive_monthly"%string; split; [simpl; tauto|reflexivity]|].
  left. unfold App.resolveExclusive. rewrite E1, E2, E3, E4, E5, E6.
  reflexivity.
Qed.

Lemma uncheckFirst_values (v : string) (group : list checkbox) :
  map cb_value (uncheckFirst v group) = map cb_value group.
Proof.
  induction group as [|cb rest IH]; simpl; [reflexivity|].
  destruct (String.eqb (cb_value cb) v); simpl; [reflexivity|].
  f_equal. exact IH.
Qed.

Lemma uncheckFirst_subset (v w : string) (group : list checkbox) :
  In w (checkedValues (uncheckFirst v group)) -> In w (checkedValues group).
Proof.
  unfold checkedValues.
  induction group as [|cb rest IH]; simpl; [tauto|].
  destruct (String.eqb (cb_value cb) v); simpl.
  - destruct (cb_checked cb); simpl; tauto.
  - destruct (cb_checked cb); simpl; tauto.
Qed.

Lemma click_other (i : nat) (group : list checkbox) (cb : checkbox) (w : string) :
  nth_error group i = Some cb -> w <> cb_value cb ->
  In w (checkedValues (click i group)) <-> In w (checkedValues group).
Proof.
  unfold checkedValues.
  revert i. induction group as [|c rest IH]; intros [|i]; simpl;
    try discriminate.
  - intros [= ->] Hw. destruct (cb_checked cb); simpl; intuition congruence.
  - intros H Hw. specialize (IH i H Hw).
    destruct (cb_checked c); simpl; rewrite ?IH; reflexivity.
Qed.

Lemma toggleAddon_boxes (i : nat) (p : Page) (cb : checkbox) :
  nth_error (addonsBoxes (controls p)) i = Some cb ->
  addonsBoxes (controls (App.toggleAddon i p))
  = App.resolveExclusive (cb_value cb) (negb (cb_checked cb))
      (click i (addonsBoxes (controls p))).
Proof.
  intros Hi. unfold App.toggleAddon, App.handleAddonChange.
  cbn [controls set_controls addonsBoxes set_addonsBoxes].
  rewrite (click_nth _ _ _ Hi). reflexivity.
Qed.

(** X9.  A toggle of an add-on checkbox never adds or removes a checkbox,
    and changes the selection of no identifier other than the toggled one
    and, when the toggle selects, its exclusive partner; a toggle that
    deselects changes the toggled identifier only. *)
Theorem toggle_touches_only_its_group
    (p : Page) (i : nat) (cb : checkbox) (w : string) :
  nth_error (addonsBoxes (controls p)) i = Some cb ->
  w <> cb_value cb ->
  map cb_value (addonsBoxes (controls (App.toggleAddon i p)))
  = map cb_value (addonsBoxes (controls p))
  /\ (~ In (cb_value cb, w) exclusivePairs \/ cb_checked cb = true ->
      (In w (checkedValues (addonsBoxes (controls (App.toggleAddon i p))))
       <-> In w (checkedValues (addonsBoxes (controls p))))).
Proof.
  intros Hi Hw. rewrite (toggleAddon_boxes i p cb Hi).
  split.
  - destruct (cb_checked cb); simpl.
    + rewrite resolveExclusive_unchecked. apply click_values.
    + destruct (resolveExclusive_cases (cb_value cb)
                  (click i (addonsBoxes (controls p))))
        as [->|(B & _ & ->)];
        rewrite ?uncheckFirst_values; apply click_values.
  - intros H. rewrite <- (click_other i _ cb w Hi Hw).
    destruct (cb_checked cb) eqn:C; simpl.
    + rewrite resolveExclusive_unchecked. reflexivity.
    + destruct H as [H|H]; [|discriminate].
      destruct (resolveExclusive_cases (cb_value cb)
                  (click i (addonsBoxes (controls p))))
        as [->|(B & HB & ->)]; [reflexivity|].
      apply uncheckFirst_other. intros ->. exact (H HB).
Qed.

Lemma toggle_touches_only_its_group_witness :
  In "timestamp"%string
    (checkedValues
       (addonsBoxes (controls
          (App.toggleAddon 1
             (Sample.page "remote" "" "" "1" "4" "standard" "pickup"
                ["audio"; "timestamp"]%string [])))))
  <-> In "timestamp"%string
        (checkedValues
           (addonsBoxes (controls
              (Sample.page "remote" "" "" "1" "4" "standard" "pickup"
                 ["audio"; "timestamp"]%string [])))).
Proof.
  apply (toggle_touches_only_its_group
           (Sample.page "remote" "" "" "1" "4" "standard" "pickup"
              ["audio"; "timestamp"]%string [])
           1%nat (Sample.box "audio_video" false) "timestamp"%string).
  - reflexivity.
  - discriminate.
  - left. simpl. intuition discriminate.
Defined.

Lemma unchecked_not_selected (i : nat) (group : list checkbox) (cb : checkbox) :
  NoDup (map cb_value group) ->
  nth_error group i = Some cb -> cb_checked cb = false ->
  ~ In (cb_value cb) (checkedValues group).
Proof.
  revert i. induction group as [|c rest IH]; intros [|i] ND; simpl;
    try discriminate; inversion ND as [|x xs Hx ND']; subst.
  - intros [= ->] C. unfold checkedValues. simpl. rewrite C.
    intros H. apply Hx. apply checkedValues_incl. exact H.
  - intros H C. unfold checkedValues. simpl.
    destruct (cb_checked c); simpl.
    + intros [E|HIn].
      * apply Hx. rewrite E. apply in_map. eapply nth_error_In. exact H.
      * exact (IH i ND' H C HIn).
    + exact (IH i ND' H C).
Qed.

Lemma exclusivePairs_sym (A B : string) :
  In (A, B) exclusivePairs -> In (B, A) exclusivePairs.
Proof.
  simpl. intros H.
  repeat (destruct H as [H|H]; [injection H as <- <-; tauto|]).
  contradiction.
Qed.

Lemma resolveExclusive_subset (v w : string) (c : bool) (group : list checkbox) :
  In w (checkedValues (App.resolveExclusive v c group)) ->
  In w (checkedValues group).
Proof.
  destruct c.
  - destruct (resolveExclusive_cases v group) as [->|(B & _ & ->)];
      [tauto|apply uncheckFirst_subset].
  - rewrite resolveExclusive_unchecked. tauto.
Qed.

Lemma click_out_of_range (i : nat) (group : list checkbox) :
  nth_error group i = None -> click i group = group.
Proof.
  revert i. induction group as [|c rest IH]; intros [|i]; simpl;
    try discriminate; try reflexivity.
  intros H. f_equal. apply IH. exact H.
Qed.

(** X10.  With one checkbox per identifier, a state of the add-on boxes in
    which no exclusivity group has both members checked stays such a state
    after any toggle. *)
Theorem toggle_keeps_groups_exclusive (p : Page) (i : nat) :
  NoDup (map cb_value (addonsBoxes (controls p))) ->
  exclusiveOk (addonsBoxes (controls p)) ->
  exclusiveOk (addonsBoxes (controls (App.toggleAddon i p))).
Proof.
  intros ND Ok.
  destruct (nth_error (addonsBoxes (controls p)) i) as [cb|] eqn:Hi.
  2: { unfold App.toggleAddon, App.handleAddonChange.
       cbn [controls set_controls addonsBoxes set_addonsBoxes].
       rewrite (click_out_of_range _ _ Hi), Hi. exact Ok. }
  rewrite (toggleAddon_boxes i p cb Hi).
  pose proof (click_nth _ _ _ Hi) as Hc.
  assert (ND' : NoDup (map cb_value (click i (addonsBoxes (controls p)))))
    by (rewrite click_values; exact ND).
  intros A B HAB [HA HB].
  destruct (string_dec A (cb_value cb)) as [EA|NA];
    [|destruct (string_dec B (cb_value cb)) as [EB|NB]].
  - (* the toggled identifier is A *)
    subst A. destruct (cb_checked cb) eqn:C; simpl in *.
    + apply resolveExclusive_subset in HA.
      revert HA. apply (unchecked_not_selected i _ _ ND' Hc). reflexivity.
    + destruct (resolveExclusive_pair _ B
                  (click i (addonsBoxes (controls p))) HAB) as [E _].
      rewrite E in HB. revert HB. apply uncheckFirst_self. exact ND'.
  - (* the toggled identifier is B *)
    subst B. destruct (cb_checked cb) eqn:C; simpl in *.
    + apply resolveExclusive_subset in HB.
      revert HB. apply (unchecked_not_selected i _ _ ND' Hc). reflexivity.
    + destruct (resolveExclusive_pair _ A
                  (click i (addonsBoxes (controls p)))
                  (exclusivePairs_sym _ _ HAB)) as [E _].
      rewrite E in HA. revert HA. apply uncheckFirst_self. exact ND'.
  - (* neither: both were checked before *)
    apply resolveExclusive_subset in HA, HB.
    apply (click_other i _ cb A Hi NA) in HA.
    apply (click_other i _ cb B Hi NB) in HB.
    exact (Ok A B HAB (conj HA HB)).
Qed.

Lemma toggle_keeps_groups_exclusive_witness :
  checkedValues
    (addonsBoxes (controls
       (App.toggleAddon 1
          (Sample.page "remote" "" "" "1" "4" "standard" "pickup"
             ["audio"; "archive_yearly"]%string []))))
  = ["audio_video"; "archive_yearly"]%string
  /\ exclusiveOk
       (addonsBoxes (controls
          (App.toggleAddon 1
             (Sample.page "remote" "" "" "1" "4" "standard" "pickup"
                ["audio"; "archive_yearly"]%string [])))).
Proof.
  split; [reflexivity|].
  apply toggle_keeps_groups_exclusive.
  - vm_compute. repeat constructor; simpl; intuition discriminate.
  - intros A B H [HA HB]. simpl in H, HA, HB.
    repeat (destruct H as [H|H];
            [injection H as <- <-; intuition discriminate|]).
    contradiction.
Defined.

(* ================================================================== *)
(** ** Further properties of the step validation *)

Lemma missing_iff (n : Z) (f : element) :
  App.missing n f = true
  <-> required f = true /\ step f = n /\ hidden f = false
      /\ value f = ""%string.
Proof.
  unfold App.missing.
  rewrite !andb_true_iff, negb_true_iff, Z.eqb_eq, String.eqb_eq. tauto.
Qed.

Lemma special_iff (p : Page) (n : Z) :
  currentStep p = Some n ->
  JS.strictEq (currentStep p) 1
  && String.eqb (value (serviceTypeSelect (controls p))) "apostille"
  && String.eqb (value (regionSelect (controls p))) "" = true
  <-> n = 1%Z
      /\ value (serviceTypeSelect (controls p)) = "apostille"%string
      /\ value (regionSelect (controls p)) = ""%string.
Proof.
  intros ->. unfold JS.strictEq.
  rewrite !andb_true_iff, Z.eqb_eq, !String.eqb_eq. tauto.
Qed.

Lemma validateCurrentStep_verdict (p : Page) (n : Z) :
  currentStep p = Some n -> In n (formSteps p) ->
  exists p1,
    App.validateCurrentStep p
    = Some (negb (existsb (App.missing n) (App.fields (controls p))
                  || (JS.strictEq (currentStep p) 1
                      && String.eqb (value (serviceTypeSelect (controls p)))
                           "apostille"
                      && String.eqb (value (regionSelect (controls p))) "")),
            p1)
    /\ currentStep p1 = Some n
    /\ notification p1
       = if existsb (App.missing n) (App.fields (controls p))
            || (JS.strictEq (currentStep p) 1
                && String.eqb (value (serviceTypeSelect (controls p)))
                     "apostille"
                && String.eqb (value (regionSelect (controls p))) "")
         then Some ("Please fill in all required fields", "error")%string
         else notification p.
Proof.
  intros Hc Hs. unfold App.validateCurrentStep.
  rewrite Hc, (stepExists _ _ Hs). rewrite <- Hc.
  destruct (existsb (App.missing n) (App.fields (controls p)));
    destruct (JS.strictEq (currentStep p) 1
              && String.eqb (value (serviceTypeSelect (controls p)))
                   "apostille"
              && String.eqb (value (regionSelect (controls p))) "");
    cbn [negb orb]; eexists;
    (split; [reflexivity|split; [first [exact Hc|reflexivity]|reflexivity]]).
Qed.

Lemma blocked_iff (p : Page) (n : Z) :
  currentStep p = Some n ->
  existsb (App.missing n) (App.fields (controls p))
  || (JS.strictEq (currentStep p) 1
      && String.eqb (value (serviceTypeSelect (controls p))) "apostille"
      && String.eqb (value (regionSelect (controls p))) "") = true
  <-> stepBlocked p n.
Proof.
  intros Hc. unfold stepBlocked.
  rewrite orb_true_iff, (special_iff p n Hc), existsb_exists.
  split; (intros [[f [Hf H]]|H]; [left; exists f; split; [exact Hf|]|right; exact H]).
  - apply missing_iff. exact H.
  - apply missing_iff. exact H.
Qed.

(** X11.  From a step that exists on the page, a click on a next button is
    rejected exactly when a required field of the step that is laid out is
    empty or, in step 1, the service is apostille without region: then the
    step stays and the error notification is raised; otherwise the step
    becomes the button's target and no notification is raised.  A required
    field that is not laid out never blocks. *)
Theorem advance_guard (p : Page) (n : Z) (dataNext : string) :
  currentStep p = Some n ->
  In n (formSteps p) ->
  exists p1,
    App.btnNext dataNext p = Some p1
    /\ (stepBlocked p n ->
        currentStep p1 = Some n
        /\ notification p1
           = Some ("Please fill in all required fields", "error")%string)
    /\ (~ stepBlocked p n ->
        currentStep p1 = JS.parseInt dataNext
        /\ notification p1 = notification p).
Proof.
  intros Hc Hs.
  destruct (validateCurrentStep_verdict p n Hc Hs) as (p1 & E & Hc1 & Hn1).
  pose proof (blocked_iff p n Hc) as B.
  unfold App.btnNext. rewrite E.
  destruct (existsb (App.missing n) (App.fields (controls p))
            || (JS.strictEq (currentStep p) 1
                && String.eqb (value (serviceTypeSelect (controls p)))
                     "apostille"
                && String.eqb (value (regionSelect (controls p))) ""));
    cbn [negb]; eexists; (split; [reflexivity|]); split.
  - intros _. split; assumption.
  - intros H. exfalso. apply H, B. reflexivity.
  - intros H. apply B in H. discriminate.
  - intros _. split; [reflexivity|].
    unfold App.goToStep.
    destruct (JS.strictEq (JS.parseInt dataNext) 3); exact Hn1.
Qed.

Lemma advance_guard_witness :
  exists p1,
    App.btnNext "2" Sample.scenario2 = Some p1
    /\ currentStep p1 = Some 2%Z.
Proof.
  destruct (advance_guard Sample.scenario2 1 "2" eq_refl (or_introl eq_refl))
    as (p1 & E & _ & H).
  exists p1. split; [exact E|].
  apply H. intros [(f & Hf & Hr & Hst & Hh & Hv)|(_ & Hs & _)].
  - simpl in Hf.
    repeat (destruct Hf as [<-|Hf]; [discriminate|]). contradiction.
  - discriminate.
Defined.

Lemma validateField_attributes (n : Z) (f : element) :
  attributes (App.validateField n f) = attributes f.
Proof. unfold App.validateField. destruct (App.missing n f); reflexivity. Qed.

Lemma validateField_error (n : Z) (f : element) :
  error f = true -> error (App.validateField n f) = true.
Proof.
  unfold App.validateField. destruct (App.missing n f); [reflexivity|tauto].
Qed.

Lemma validateField_keeps_errors (n : Z) (l : list element) :
  Forall2 (fun f f1 => error f = true -> error f1 = true)
    l (map (App.validateField n) l).
Proof.
  induction l as [|f l IH]; simpl; constructor;
    [apply validateField_error|exact IH].
Qed.

Lemma fields_mapFields (F : element -> element) (c : Controls) :
  App.fields (App.mapFields F c) = map F (App.fields c).
Proof.
  unfold App.fields, App.mapFields.
  cbn [serviceTypeSelect regionSelect locationTypeSelect numDocumentsInput
       sessionHoursSelect otherFields map].
  do 4 f_equal. rewrite map_app. f_equal.
  destruct (sessionHoursSelect c); reflexivity.
Qed.

Lemma fields_cons (c : Controls) :
  exists rest,
    App.fields c = serviceTypeSelect c :: regionSelect c :: rest.
Proof. eexists. reflexivity. Qed.

Lemma Forall2_mark_second (F : element -> element) (a b e : element)
    (rest : list element) :
  Forall2 (fun f f1 => error f = true -> error f1 = true)
    (a :: b :: rest) (map F (a :: b :: rest)) ->
  error e = true ->
  Forall2 (fun f f1 => error f = true -> error f1 = true)
    (a :: b :: rest)
    (F a :: e :: tl (tl (map F (a :: b :: rest)))).
Proof.
  intros H He. simpl in *.
  inversion H as [|? ? ? ? H1 H2]; subst.
  inversion H2 as [|? ? ? ? H3 H4]; subst.
  constructor; [exact H1|]. constructor; [intros _; exact He|exact H4].
Qed.

Lemma fields_set_regionSelect (e : element) (c : Controls) :
  App.fields (set_regionSelect e c)
  = serviceTypeSelect c :: e :: tl (tl (App.fields c)).
Proof. reflexivity. Qed.

(** X12.  Whatever its verdict, [validateCurrentStep] leaves the value,
    required flag, layout and step of every control, the checkboxes and
    radios, the quote summary and the current step as they were, and removes
    no error mark. *)
Theorem validation_only_marks_errors (p p1 : Page) (ok : bool) :
  App.validateCurrentStep p = Some (ok, p1) ->
  map attributes (App.fields (controls p1))
  = map attributes (App.fields (controls p))
  /\ Forall2 (fun f f1 => error f = true -> error f1 = true)
       (App.fields (controls p)) (App.fields (controls p1))
  /\ addonsBoxes (controls p1) = addonsBoxes (controls p)
  /\ remoteUrgencyBoxes (controls p1) = remoteUrgencyBoxes (controls p)
  /\ urgencyRadios (controls p1) = urgencyRadios (controls p)
  /\ deliveryRadios (controls p1) = deliveryRadios (controls p)
  /\ quoteDom p1 = quoteDom p
  /\ currentStep p1 = currentStep p.
Proof.
  unfold App.validateCurrentStep.
  destruct (currentStep p) as [n|] eqn:Hc; [|discriminate].
  destruct (existsb (Z.eqb n) (formSteps p)); [|discriminate].
  assert (A : map attributes
                (App.fields (App.mapFields (App.validateField n) (controls p)))
              = map attributes (App.fields (controls p))).
  { rewrite fields_mapFields, map_map. apply map_ext.
    apply validateField_attributes. }
  assert (E : Forall2 (fun f f1 => error f = true -> error f1 = true)
                (App.fields (controls p))
                (App.fields (App.mapFields (App.validateField n) (controls p)))).
  { rewrite fields_mapFields. apply validateField_keeps_errors. }
  assert (A' : map attributes
                 (App.fields
                    (set_regionSelect
                       (addError
                          (regionSelect
                             (App.mapFields (App.validateField n) (controls p))))
                       (App.mapFields (App.validateField n) (controls p))))
               = map attributes (App.fields (controls p)))
    by (rewrite <- A; reflexivity).
  assert (E' : Forall2 (fun f f1 => error f = true -> error f1 = true)
                 (App.fields (controls p))
                 (App.fields
                    (set_regionSelect
                       (addError
                          (regionSelect
                             (App.mapFields (App.validateField n) (controls p))))
                       (App.mapFields (App.validateField n) (controls p))))).
  { rewrite fields_set_regionSelect, fields_mapFields.
    cbn [serviceTypeSelect App.mapFields].
    destruct (fields_cons (controls p)) as [rest ->].
    apply Forall2_mark_second;
      [apply validateField_keeps_errors|reflexivity]. }
  destruct (JS.strictEq (Some n) 1
            && String.eqb (value (serviceTypeSelect (controls p))) "apostille"
            && String.eqb (value (regionSelect (controls p))) "");
    destruct (existsb (App.missing n) (App.fields (controls p)));
    cbn [negb]; intros [= _ <-];
    cbn [controls set_controls set_notification quoteDom currentStep];
    repeat split;
    first [exact A|exact A'|exact E|exact E'|exact Hc|reflexivity].
Qed.

Lemma validation_only_marks_errors_witness :
  exists p1,
    App.validateCurrentStep Sample.scenario4 = Some (false, p1)
    /\ quoteDom p1 = quoteDom Sample.scenario4
    /\ currentStep p1 = currentStep Sample.scenario4.
Proof.
  eexists. split; [reflexivity|].
  refine (let H := validation_only_marks_errors Sample.scenario4 _ false
                     eq_refl in _).
  destruct H as (_ & _ & _ & _ & _ & _ & Hq & Hc). split; assumption.
Defined.

Lemma missing_legacy (n : Z) (f : element) :
  App.missing n f = true -> LegacyForm.missing n f = true.
Proof.
  unfold App.missing, LegacyForm.missing.
  rewrite !andb_true_iff. tauto.
Qed.

Lemma missing_same (n : Z) (f : element) :
  (required f = true -> step f = n -> hidden f = false) ->
  LegacyForm.missing n f = App.missing n f.
Proof.
  unfold App.missing, LegacyForm.missing. intros H.
  destruct (required f); [|reflexivity].
  destruct (step f =? n)%Z eqn:E; [|reflexivity].
  apply Z.eqb_eq in E. rewrite (H eq_refl E). simpl. reflexivity.
Qed.

Lemma existsb_ext_in {A : Type} (f g : A -> bool) (l : list A) :
  (forall x, In x l -> f x = g x) -> existsb f l = existsb g l.
Proof.
  induction l as [|a l IH]; simpl; intros H; [reflexivity|].
  rewrite (H a (or_introl eq_refl)), IH; [reflexivity|].
  intros x Hx. apply H. right. exact Hx.
Qed.

Lemma mapFields_ext_in (F G : element -> element) (c : Controls) :
  (forall f, In f (App.fields c) -> F f = G f) ->
  App.mapFields F c = App.mapFields G c.
Proof.
  intros H. unfold App.mapFields.
  assert (H1 : F (serviceTypeSelect c) = G (serviceTypeSelect c))
    by (apply H; unfold App.fields; simpl; tauto).
  assert (H2 : F (regionSelect c) = G (regionSelect c))
    by (apply H; unfold App.fields; simpl; tauto).
  assert (H3 : F (locationTypeSelect c) = G (locationTypeSelect c))
    by (apply H; unfold App.fields; simpl; tauto).
  assert (H4 : F (numDocumentsInput c) = G (numDocumentsInput c))
    by (apply H; unfold App.fields; simpl; tauto).
  assert (H5 : option_map F (sessionHoursSelect c)
               = option_map G (sessionHoursSelect c)).
  { unfold App.fields in H. destruct (sessionHoursSelect c) as [e|];
      [|reflexivity].
    simpl. f_equal. apply H. simpl. tauto. }
  assert (H6 : map F (otherFields c) = map G (otherFields c)).
  { apply map_ext_in. intros f Hf. apply H. unfold App.fields.
    do 4 right. apply in_or_app. right. exact Hf. }
  rewrite H1, H2, H3, H4, H5, H6. reflexivity.
Qed.

(** X13.  The older validation is the stricter one: whenever it accepts a
    step, the current validation accepts it too; and when no required field
    of the current step is out of the layout, the two give the same verdict
    and leave the same page.  They differ only in that the older one also
    rejects for an empty required field that is not laid out. *)
Theorem legacy_validation_is_stricter (p : Page) (n : Z) :
  currentStep p = Some n ->
  (forall pl, LegacyForm.validateCurrentStep p = Some (true, pl) ->
              exists pa, App.validateCurrentStep p = Some (true, pa))
  /\ ((forall f, In f (App.fields (controls p)) ->
                 required f = true -> step f = n -> hidden f = false) ->
      LegacyForm.validateCurrentStep p = App.validateCurrentStep p).
Proof.
  intros Hc. split.
  - intros pl. unfold LegacyForm.validateCurrentStep, App.validateCurrentStep.
    rewrite Hc.
    destruct (existsb (Z.eqb n) (formSteps p)); [|discriminate].
    destruct (JS.strictEq (Some n) 1
              && String.eqb (value (serviceTypeSelect (controls p)))
                   "apostille"
              && String.eqb (value (regionSelect (controls p))) "");
      [discriminate|].
    destruct (existsb (LegacyForm.missing n) (App.fields (controls p)))
      eqn:L; cbn [negb]; [discriminate|].
    intros _.
    assert (A : existsb (App.missing n) (App.fields (controls p)) = false).
    { apply existsb_false. intros f Hf.
      destruct (App.missing n f) eqn:M; [|reflexivity].
      apply missing_legacy in M.
      assert (existsb (LegacyForm.missing n) (App.fields (controls p)) = true)
        by (apply existsb_exists; exists f; tauto).
      congruence. }
    rewrite A. cbn [negb]. eexists. reflexivity.
  - intros H. unfold LegacyForm.validateCurrentStep, App.validateCurrentStep.
    rewrite Hc.
    rewrite (existsb_ext_in (LegacyForm.missing n) (App.missing n)
               (App.fields (controls p)))
      by (intros f Hf; apply missing_same; apply H; exact Hf).
    rewrite (mapFields_ext_in (LegacyForm.validateField n)
               (App.validateField n) (controls p)); [reflexivity|].
    intros f Hf. unfold LegacyForm.validateField, App.validateField.
    rewrite (missing_same n f (H f Hf)). reflexivity.
Qed.

Lemma legacy_validation_is_stricter_witness :
  LegacyForm.validateCurrentStep Sample.scenario2
  = App.validateCurrentStep Sample.scenario2.
Proof.
  apply (legacy_validation_is_stricter Sample.scenario2 1 eq_refl).
  intros f Hf. simpl in Hf.
  repeat (destruct Hf as [<-|Hf]; [simpl; intros; congruence|]).
  contradiction.
Defined.

(* ================================================================== *)
(** ** Properties of the service-type handler *)

Lemma buildQuote_after_change (p : Page) (g : Form.Groups) :
  App.buildQuote (controls (fst (Form.handleServiceTypeChange p g)))
  = App.buildQuote (controls p).
Proof.
  unfold Form.handleServiceTypeChange.
  match goal with
  | |- context [let '(_, _) := ?T in _] => destruct T
  end.
  reflexivity.
Qed.

(** X14.  After a change of service type, a group of controls that the
    handler has hidden charges nothing in the quote, whatever is still
    selected inside it: location, session hours, recording add-ons,
    complexity add-ons, documents, standard urgency, delivery and booking
    options each price at 0 when their group is hidden. *)
Theorem hidden_groups_charge_nothing (p : Page) (g : Form.Groups) :
  (Form.locationTypeGroup (snd (Form.handleServiceTypeChange p g))
   = "none"%string ->
   App.locationPrice
     (App.buildQuote (controls (fst (Form.handleServiceTypeChange p g)))) = 0)
  /\ (Form.sessionHoursGroup (snd (Form.handleServiceTypeChange p g))
      = "none"%string ->
      App.sessionOveragePrice
        (App.buildQuote (controls (fst (Form.handleServiceTypeChange p g))))
      = 0)
  /\ (Form.recordingAddonsGroup (snd (Form.handleServiceTypeChange p g))
      = "none"%string ->
      App.recordingPrice
        (App.buildQuote (controls (fst (Form.handleServiceTypeChange p g))))
      = 0)
  /\ (Form.complexityGroup (snd (Form.handleServiceTypeChange p g))
      = "none"%string ->
      App.complexityPrice
        (App.buildQuote (controls (fst (Form.handleServiceTypeChange p g))))
      = 0)
  /\ (Form.numDocumentsGroup (snd (Form.handleServiceTypeChange p g))
      = "none"%string ->
      App.additionalDocsPrice
        (App.buildQuote (controls (fst (Form.handleServiceTypeChange p g))))
      = 0)
  /\ (Form.standardUrgencyGroup (snd (Form.handleServiceTypeChange p g))
      = Some "none"%string ->
      App.urgencyPrice
        (App.buildQuote (controls (fst (Form.handleServiceTypeChange p g))))
      = 0)
  /\ (Form.deliveryGroup (snd (Form.handleServiceTypeChange p g))
      = Some "none"%string ->
      App.deliveryPrice
        (App.buildQuote (controls (fst (Form.handleServiceTypeChange p g))))
      = 0)
  /\ (Form.remoteUrgencyGroup (snd (Form.handleServiceTypeChange p g))
      = Some "none"%string ->
      App.bookingUrgencyPrice
        (App.buildQuote (controls (fst (Form.handleServiceTypeChange p g))))
      = 0).
Proof.
  rewrite buildQuote_after_change.
  unfold Form.handleServiceTypeChange, App.buildQuote, Form.isRemoteType.
  cbn [existsb].
  remember (value (serviceTypeSelect (controls p))) as st eqn:Hst.
  clear Hst.
  service_cases st;
    try rewrite E, E0, E1, E2, E3, E4, E5, E6;
    cbn [String.eqb Ascii.eqb Bool.eqb orb fst snd Form.layout
         Form.locationTypeGroup Form.sessionHoursGroup
         Form.recordingAddonsGroup Form.complexityGroup
         Form.numDocumentsGroup Form.standardUrgencyGroup
         Form.deliveryGroup Form.remoteUrgencyGroup App.assign
         App.locationPrice App.sessionOveragePrice App.recordingPrice
         App.complexityPrice App.additionalDocsPrice App.urgencyPrice
         App.deliveryPrice App.bookingUrgencyPrice];
    repeat split; intros H;
    first [reflexivity | discriminate H | absent_or_shown H].
Qed.

Lemma hidden_groups_charge_nothing_witness :
  App.recordingPrice
    (App.buildQuote
       (controls
          (fst (Form.changeServiceType "poa"
                  (Sample.page "remote" "" "mobile" "1" "6" "standard" "pickup"
                     ["audio"]%string ["rush_booking"]%string)
                  {| Form.regionGroup := "none";
                     Form.locationTypeGroup := "none";
                     Form.sessionHoursGroup := "block";
                     Form.recordingAddonsGroup := "block";
                     Form.recordingDeliveryGroup := "block";
                     Form.complexityGroup := "block";
                     Form.certifiedReporterGroup := "none";
                     Form.numDocumentsGroup := "none";
                     Form.standardUrgencyGroup := Some "none"%string;
                     Form.remoteUrgencyGroup := Some "block"%string;
                     Form.deliveryGroup := Some "none"%string |})))) = 0.
Proof.
  unfold Form.changeServiceType.
  apply hidden_groups_charge_nothing. reflexivity.
Defined.

Lemma displayIfPresent_twice (v : string) (o : option string) :
  Form.displayIfPresent v (Form.displayIfPresent v o)
  = Form.displayIfPresent v o.
Proof. destruct o; reflexivity. Qed.

Lemma layout_twice (r : bool) (g : Form.Groups)
    (a b c d e f h i a' b' c' d' e' f' h' i' : string) :
  Form.layout r (Form.layout r g a b c d e f h i) a' b' c' d' e' f' h' i'
  = Form.layout r g a' b' c' d' e' f' h' i'.
Proof.
  unfold Form.layout.
  cbn [Form.standardUrgencyGroup Form.remoteUrgencyGroup Form.deliveryGroup].
  rewrite !displayIfPresent_twice. reflexivity.
Qed.

(** X15.  Handling a change of service type twice in a row gives the page
    and the group displays that handling it once gives: the displays after a
    change depend on the service type and on which optional groups exist,
    not on what was shown before. *)
Theorem handleServiceTypeChange_idempotent (p : Page) (g : Form.Groups) :
  Form.handleServiceTypeChange
    (fst (Form.handleServiceTypeChange p g))
    (snd (Form.handleServiceTypeChange p g))
  = Form.handleServiceTypeChange p g.
Proof.
  unfold Form.handleServiceTypeChange at 1.
  assert (Hst : value (serviceTypeSelect
                         (controls (fst (Form.handleServiceTypeChange p g))))
                = value (serviceTypeSelect (controls p))).
  { unfold Form.handleServiceTypeChange.
    match goal with
    | |- context [let '(_, _) := ?T in _] => destruct T
    end. reflexivity. }
  rewrite Hst.
  unfold Form.handleServiceTypeChange.
  repeat match goal with
         | |- context [if ?b then (_, _) else _] => destruct b
         end;
    cbn [fst snd]; rewrite !layout_twice; f_equal;
    unfold App.calculateQuote;
    cbn [controls set_controls set_quoteDom quoteDom set_regionSelect
         regionSelect Form.set_required value hidden step error];
    rewrite updateQuoteDisplay_twice; reflexivity.
Qed.

(** X16.  After a change of service type the documents line of the quote
    summary is hidden exactly when the documents input group is hidden, and
    the quote is flagged as a remote service exactly when the handler
    treats the service type as remote: the two lists of remote service
    types in the script agree. *)
Theorem documents_group_matches_documents_line (p : Page) (g : Form.Groups) :
  (Form.numDocumentsGroup (snd (Form.handleServiceTypeChange p g))
   = "none"%string
   <-> display
         (documentsLine (quoteDom (fst (Form.handleServiceTypeChange p g))))
       = "none"%string)
  /\ App.isRemoteService
       (App.buildQuote (controls (fst (Form.handleServiceTypeChange p g))))
     = Form.isRemoteType (value (serviceTypeSelect (controls p))).
Proof.
  rewrite buildQuote_after_change.
  assert (Hq : quoteDom (fst (Form.handleServiceTypeChange p g))
               = App.updateQuoteDisplay (App.buildQuote (controls p))
                   (quoteDom p)).
  { unfold Form.handleServiceTypeChange.
    match goal with
    | |- context [let '(_, _) := ?T in _] => destruct T
    end. reflexivity. }
  rewrite Hq.
  unfold Form.handleServiceTypeChange, App.buildQuote, Form.isRemoteType.
  cbn [existsb].
  remember (value (serviceTypeSelect (controls p))) as st eqn:Hst.
  clear Hst Hq.
  service_cases st;
    try rewrite E, E0, E1, E2, E3, E4, E5, E6;
    cbn [String.eqb Ascii.eqb Bool.eqb orb fst snd Form.layout
         Form.numDocumentsGroup App.assign App.isRemoteService
         App.updateQuoteDisplay documentsLine];
    (split; [|reflexivity]);
    try (split; reflexivity);
    destruct (1 <? _)%Z; cbn [display]; split; discriminate.
Qed.

(** X17.  On every page the older handler and the current one give the
    region group and the location group the same display and the region
    select the same required flag. *)
Theorem legacy_layout_agrees (p : Page) (g : Form.Groups) :
  Form.regionGroup (snd (LegacyForm.handleServiceTypeChange p g))
  = Form.regionGroup (snd (Form.handleServiceTypeChange p g))
  /\ Form.locationTypeGroup (snd (LegacyForm.handleServiceTypeChange p g))
     = Form.locationTypeGroup (snd (Form.handleServiceTypeChange p g))
  /\ required
       (regionSelect (controls (fst (LegacyForm.handleServiceTypeChange p g))))
     = required
         (regionSelect (controls (fst (Form.handleServiceTypeChange p g)))).
Proof.
  unfold LegacyForm.handleServiceTypeChange, Form.handleServiceTypeChange.
  remember (value (serviceTypeSelect (controls p))) as st eqn:Hst.
  clear Hst.
  service_cases st;
    try rewrite E, E0, E1, E2, E3, E4, E5, E6;
    cbn [String.eqb Ascii.eqb Bool.eqb orb];
    repeat split.
Qed.

(* ================================================================== *)
(** ** The two calculators side by side *)

(** X18.  For the five service types that both calculators price, the older
    summary and the current one show the same base line, the same label and
    value on the documents line, and the same urgency, delivery and location
    lines. *)
Theorem legacy_lines_agree (p : Page) :
  In (value (serviceTypeSelect (controls p))) notaryServiceTypes ->
  baseServiceLine (quoteDom (Legacy.calculateQuote p))
  = baseServiceLine (quoteDom (App.calculateQuote p))
  /\ label (documentsLine (quoteDom (Legacy.calculateQuote p)))
     = label (documentsLine (quoteDom (App.calculateQuote p)))
  /\ content (documentsLine (quoteDom (Legacy.calculateQuote p)))
     = content (documentsLine (quoteDom (App.calculateQuote p)))
  /\ urgencyLine (quoteDom (Legacy.calculateQuote p))
     = urgencyLine (quoteDom (App.calculateQuote p))
  /\ deliveryLine (quoteDom (Legacy.calculateQuote p))
     = deliveryLine (quoteDom (App.calculateQuote p))
  /\ locationLine (quoteDom (Legacy.calculateQuote p))
     = locationLine (quoteDom (App.calculateQuote p)).
Proof.
  intros H. simpl in H.
  unfold Legacy.calculateQuote, App.calculateQuote.
  cbn [quoteDom set_quoteDom Legacy.updateQuoteDisplay
       App.updateQuoteDisplay baseServiceLine documentsLine urgencyLine
       deliveryLine locationLine].
  unfold Legacy.buildQuote, App.buildQuote.
  repeat (destruct H as [H|H];
          [rewrite <- H;
           cbn [String.eqb Ascii.eqb Bool.eqb App.assign
                Legacy.serviceName Legacy.basePrice Legacy.numDocs
                Legacy.additionalDocsPrice Legacy.urgency Legacy.urgencyPrice
                Legacy.delivery Legacy.deliveryPrice Legacy.locationType
                Legacy.locationPrice App.serviceName App.basePrice
                App.numDocs App.additionalDocsPrice App.urgency
                App.urgencyPrice App.delivery App.deliveryPrice
                App.locationType App.locationPrice App.isRemoteService];
           repeat split;
           destruct (1 <? _)%Z; reflexivity|]).
  contradiction.
Qed.

Lemma legacy_lines_agree_witness :
  urgencyLine (quoteDom (Legacy.calculateQuote Sample.scenario2))
  = urgencyLine (quoteDom (App.calculateQuote Sample.scenario2)).
Proof.
  apply (legacy_lines_agree Sample.scenario2). simpl. tauto.
Defined.



(* ================================================================== *)
(** ** Properties of the upload handlers *)

Lemma handleFile_files (u : Upload.Uploads) (f : Upload.file) :
  Upload.uploadedFiles (Upload.handleFile u f)
  = if accepts (Upload.uploadedFiles u) f
    then Upload.uploadedFiles u ++ [f] else Upload.uploadedFiles u.
Proof.
  unfold Upload.handleFile, accepts.
  destruct (Upload.includes _ _); simpl; [|reflexivity].
  destruct (Upload.maxSize <? _)%Z; simpl; [reflexivity|].
  destruct (Upload.alreadyUploaded _ _); reflexivity.
Qed.

Lemma handleFile_notification (u : Upload.Uploads) (f : Upload.file) :
  if accepts (Upload.uploadedFiles u) f
  then Upload.notification (Upload.handleFile u f) = Upload.notification u
  else exists msg,
         Upload.notification (Upload.handleFile u f)
         = Some (msg, "error"%string).
Proof.
  unfold Upload.handleFile, accepts.
  destruct (Upload.includes _ _); simpl; [|eexists; reflexivity].
  destruct (Upload.maxSize <? _)%Z; simpl; [eexists; reflexivity|].
  destruct (Upload.alreadyUploaded _ _); simpl;
    [eexists; reflexivity|reflexivity].
Qed.

Lemma includes_In (x : string) (l : list string) :
  Upload.includes x l = true <-> In x l.
Proof.
  unfold Upload.includes. rewrite existsb_exists. split.
  - intros [y [Hy E]]. apply String.eqb_eq in E. subst. exact Hy.
  - intros H. exists x. split; [exact H|apply String.eqb_refl].
Qed.

Lemma alreadyUploaded_In (f : Upload.file) (files : list Upload.file) :
  Upload.alreadyUploaded f files = true
  <-> In (fileKey f) (map fileKey files).
Proof.
  unfold Upload.alreadyUploaded, fileKey.
  rewrite existsb_exists, in_map_iff. split.
  - intros [g [Hg E]]. apply andb_true_iff in E. destruct E as [E1 E2].
    apply String.eqb_eq in E1. apply Z.eqb_eq in E2.
    exists g. split; [congruence|exact Hg].
  - intros [g [E Hg]]. injection E as E1 E2. exists g.
    split; [exact Hg|]. rewrite E1, E2, String.eqb_refl, Z.eqb_refl.
    reflexivity.
Qed.

Lemma accepts_iff (files : list Upload.file) (f : Upload.file) :
  accepts files f = true
  <-> acceptable f /\ ~ In (fileKey f) (map fileKey files).
Proof.
  unfold accepts, acceptable.
  rewrite !andb_true_iff, !negb_true_iff, includes_In, Z.ltb_ge.
  rewrite <- alreadyUploaded_In.
  destruct (Upload.alreadyUploaded f files); intuition congruence.
Qed.

Lemma uploadsOk_push (files : list Upload.file) (f : Upload.file) :
  uploadsOk files -> accepts files f = true -> uploadsOk (files ++ [f]).
Proof.
  intros [HA HN] Hf. apply accepts_iff in Hf. destruct Hf as [Hok Hnew].
  split.
  - apply Forall_app. split; [exact HA|constructor; [exact Hok|constructor]].
  - rewrite map_app. simpl.
    apply NoDup_app; [exact HN|repeat constructor; simpl; tauto|].
    intros k Hk [<-|[]]. exact (Hnew Hk).
Qed.

Lemma spliceOne_shape {A : Type} (index : option Z) (l : list A) :
  exists k, Upload.spliceOne index l = firstn k l ++ skipn (S k) l.
Proof. unfold Upload.spliceOne. eexists. reflexivity. Qed.

Lemma remove_at_incl {A : Type} (k : nat) (l : list A) (x : A) :
  In x (firstn k l ++ skipn (S k) l) -> In x l.
Proof.
  revert k. induction l as [|a l IH]; intros [|k]; simpl; try tauto.
  intros [H|H]; [tauto|]. right. exact (IH k H).
Qed.

Lemma NoDup_remove_at {A : Type} (k : nat) (l : list A) :
  NoDup l -> NoDup (firstn k l ++ skipn (S k) l).
Proof.
  revert k. induction l as [|a l IH]; intros [|k] H; simpl;
    try exact H; inversion H as [|x xs Hx Hl]; subst.
  - exact Hl.
  - constructor; [|apply IH; exact Hl].
    intros Hin. apply Hx. exact (remove_at_incl k l a Hin).
Qed.

Lemma map_remove_at {A B : Type} (F : A -> B) (k : nat) (l : list A) :
  map F (firstn k l ++ skipn (S k) l)
  = firstn k (map F l) ++ skipn (S k) (map F l).
Proof.
  rewrite map_app, firstn_map, skipn_map. reflexivity.
Qed.

(** X20.  If every file of the upload list has an allowed type and at most
    10 MB and no two have the same name and size, this still holds after
    any batch handled by [handleFiles] (duplicates inside the batch
    included) and after any click on a remove button. *)
Theorem upload_list_stays_valid_and_distinct
    (u : Upload.Uploads) (batch : list Upload.file) (dataIndex : string) :
  uploadsOk (Upload.uploadedFiles u) ->
  uploadsOk (Upload.uploadedFiles (Upload.handleFiles batch u))
  /\ uploadsOk (Upload.uploadedFiles (Upload.removeFile dataIndex u)).
Proof.
  intros Ok. split.
  - unfold Upload.handleFiles. revert u Ok.
    induction batch as [|f rest IH]; intros u Ok; simpl; [exact Ok|].
    apply IH. rewrite handleFile_files.
    destruct (accepts (Upload.uploadedFiles u) f) eqn:E; [|exact Ok].
    apply uploadsOk_push; assumption.
  - unfold Upload.removeFile. cbn [Upload.uploadedFiles].
    destruct (spliceOne_shape (JS.parseInt dataIndex) (Upload.uploadedFiles u))
      as [k ->].
    destruct Ok as [HA HN]. split.
    + rewrite Forall_forall in *. intros f Hf.
      apply HA. exact (remove_at_incl k _ f Hf).
    + rewrite map_remove_at. apply NoDup_remove_at. exact HN.
Qed.

Lemma upload_list_stays_valid_and_distinct_witness :
  uploadsOk
    (Upload.uploadedFiles
       (Upload.handleFiles [deedPdf; hugeJpg; deedPdf; scanPng] noUploads)).
Proof.
  apply (upload_list_stays_valid_and_distinct noUploads
           [deedPdf; hugeJpg; deedPdf; scanPng] "0").
  split; constructor.
Defined.

(** X21.  [handleFiles] only appends: the files uploaded before stay, in
    order, followed by files of the batch, and a file of the batch is left
    out only with an error notification.  If the whole batch is taken the
    notification on display is untouched; if any file is left out an error
    notification is on display afterwards. *)
Theorem upload_appends_or_notifies
    (batch : list Upload.file) (u : Upload.Uploads) :
  exists added,
    Upload.uploadedFiles (Upload.handleFiles batch u)
    = Upload.uploadedFiles u ++ added
    /\ incl added batch
    /\ (List.length added <= List.length batch)%nat
    /\ (List.length added = List.length batch ->
        Upload.notification (Upload.handleFiles batch u)
        = Upload.notification u)
    /\ ((List.length added < List.length batch)%nat ->
        exists msg,
          Upload.notification (Upload.handleFiles batch u)
          = Some (msg, "error"%string)).
Proof.
  unfold Upload.handleFiles. revert u.
  induction batch as [|f rest IH]; intros u; simpl.
  - exists []. rewrite app_nil_r. simpl.
    repeat split; try (intros x []); try (intros; lia).
  - destruct (IH (Upload.handleFile u f))
      as (added & Hfiles & Hincl & Hlen & Hall & Hsome).
    pose proof (handleFile_files u f) as Ff.
    pose proof (handleFile_notification u f) as Fn.
    destruct (accepts (Upload.uploadedFiles u) f).
    + exists (f :: added). rewrite Hfiles, Ff, <- app_assoc. simpl.
      split; [reflexivity|]. split.
      { intros x [<-|Hx]; [left; reflexivity|right; exact (Hincl x Hx)]. }
      split; [lia|]. split.
      * intros H. rewrite Hall by lia. exact Fn.
      * intros H. apply Hsome. lia.
    + exists added. rewrite Hfiles, Ff.
      split; [reflexivity|]. split.
      { intros x Hx. right. exact (Hincl x Hx). }
      split; [lia|]. split; [lia|].
      intros _. destruct Fn as [msg Fn].
      destruct (Nat.eq_dec (List.length added) (List.length rest)) as [E|N].
      * exists msg. rewrite (Hall E). exact Fn.
      * apply Hsome. lia.
Qed.

Lemma upload_appends_or_notifies_aux
    (batch : list Upload.file) (u : Upload.Uploads) :
  exists added,
    Upload.uploadedFiles (fold_left Upload.handleFile batch u)
    = Upload.uploadedFiles u ++ added.
Proof.
  revert u. induction batch as [|f rest IH]; intros u; simpl.
  - exists []. rewrite app_nil_r. reflexivity.
  - destruct (IH (Upload.handleFile u f)) as [added E].
    rewrite E, handleFile_files.
    destruct (accepts (Upload.uploadedFiles u) f).
    + exists (f :: added). rewrite <- app_assoc. reflexivity.
    + exists added. reflexivity.
Qed.

Lemma present_or_rejected (batch : list Upload.file) :
  forall u f,
    In f batch ->
    accepts (Upload.uploadedFiles (fold_left Upload.handleFile batch u)) f
    = false.
Proof.
  induction batch as [|g rest IH]; intros u f Hf; simpl; [destruct Hf|].
  destruct Hf as [->|Hf]; [|apply IH; exact Hf].
  destruct (upload_appends_or_notifies_aux rest (Upload.handleFile u f))
    as [added E].
  rewrite E. apply not_true_is_false. intros B.
  apply accepts_iff in B. destruct B as [Hok B].
  rewrite handleFile_files in B.
  destruct (accepts (Upload.uploadedFiles u) f) eqn:A.
  - apply B. rewrite !map_app. simpl. apply in_or_app. left.
    apply in_or_app. right. left. reflexivity.
  - assert (A' : ~ (acceptable f
                    /\ ~ In (fileKey f)
                           (map fileKey (Upload.uploadedFiles u))))
      by (rewrite <- accepts_iff; congruence).
    apply A'. split; [exact Hok|].
    intros H. apply B. rewrite map_app. apply in_or_app. left. exact H.
Qed.

Lemma all_rejected (batch : list Upload.file) :
  forall u,
    (forall f, In f batch -> accepts (Upload.uploadedFiles u) f = false) ->
    Upload.uploadedFiles (fold_left Upload.handleFile batch u)
    = Upload.uploadedFiles u.
Proof.
  induction batch as [|f rest IH]; intros u H; simpl; [reflexivity|].
  assert (E : Upload.uploadedFiles (Upload.handleFile u f)
              = Upload.uploadedFiles u).
  { rewrite handleFile_files, (H f (or_introl eq_refl)). reflexivity. }
  rewrite IH; [exact E|].
  intros g Hg. rewrite E. apply H. right. exact Hg.
Qed.

(** X22.  Handling the same batch of files a second time adds nothing: after
    a batch has been handled, each of its files is either of a refused type
    or size or already in the list. *)
Theorem upload_same_batch_again_adds_nothing
    (batch : list Upload.file) (u : Upload.Uploads) :
  Upload.uploadedFiles (Upload.handleFiles batch (Upload.handleFiles batch u))
  = Upload.uploadedFiles (Upload.handleFiles batch u).
Proof.
  unfold Upload.handleFiles. apply all_rejected.
  intros f Hf. apply present_or_rejected. exact Hf.
Qed.

Lemma spliceOne_at {A : Type} (i : nat) (l : list A) :
  (i < List.length l)%nat ->
  Upload.spliceOne (Some (Z.of_nat i)) l = firstn i l ++ skipn (S i) l.
Proof.
  intros H. unfold Upload.spliceOne.
  assert (E : (Z.of_nat i <? 0)%Z = false) by (apply Z.ltb_ge; lia).
  rewrite E, Z.min_l by lia. rewrite Nat2Z.id. reflexivity.
Qed.

Lemma remove_at_middle {A : Type} (l1 l2 : list A) (a : A) :
  firstn (List.length l1) (l1 ++ a :: l2)
  ++ skipn (S (List.length l1)) (l1 ++ a :: l2)
  = l1 ++ l2.
Proof.
  induction l1 as [|x l1 IH]; simpl; [reflexivity|].
  f_equal. exact IH.
Qed.

(** X23.  With a valid list without duplicates, a click on the remove
    button of the [i]-th file takes exactly that file out, and uploading the
    removed file again is accepted and puts it at the end of the list. *)
Theorem removed_file_can_be_uploaded_again
    (u : Upload.Uploads) (i : nat) (f : Upload.file) (dataIndex : string) :
  uploadsOk (Upload.uploadedFiles u) ->
  nth_error (Upload.uploadedFiles u) i = Some f ->
  JS.parseInt dataIndex = Some (Z.of_nat i) ->
  Upload.uploadedFiles (Upload.removeFile dataIndex u)
  = firstn i (Upload.uploadedFiles u) ++ skipn (S i) (Upload.uploadedFiles u)
  /\ Upload.uploadedFiles
       (Upload.handleFiles [f] (Upload.removeFile dataIndex u))
     = (firstn i (Upload.uploadedFiles u)
        ++ skipn (S i) (Upload.uploadedFiles u)) ++ [f].
Proof.
  intros [HA HN] Hi Hp.
  assert (Hlen : (i < List.length (Upload.uploadedFiles u))%nat)
    by (apply nth_error_Some; congruence).
  assert (R : Upload.uploadedFiles (Upload.removeFile dataIndex u)
              = firstn i (Upload.uploadedFiles u)
                ++ skipn (S i) (Upload.uploadedFiles u)).
  { unfold Upload.removeFile. cbn [Upload.uploadedFiles].
    rewrite Hp. apply spliceOne_at. exact Hlen. }
  split; [exact R|].
  unfold Upload.handleFiles. simpl. rewrite handleFile_files, R.
  assert (Acc : accepts (firstn i (Upload.uploadedFiles u)
                         ++ skipn (S i) (Upload.uploadedFiles u)) f = true).
  { apply accepts_iff. split.
    - rewrite Forall_forall in HA. apply HA.
      eapply nth_error_In. exact Hi.
    - destruct (nth_error_split _ _ Hi) as (l1 & l2 & E & L).
      rewrite E in HN |- *. subst i.
      rewrite remove_at_middle.
      rewrite map_app in *. simpl in HN.
      apply NoDup_remove_2 in HN. exact HN. }
  rewrite Acc. reflexivity.
Qed.

Lemma removed_file_can_be_uploaded_again_witness :
  Upload.uploadedFiles
    (Upload.handleFiles [deedPdf]
       (Upload.removeFile "0"
          (Upload.handleFiles [deedPdf; scanPng] noUploads)))
  = [scanPng; deedPdf].
Proof.
  destruct (removed_file_can_be_uploaded_again
              (Upload.handleFiles [deedPdf; scanPng] noUploads)
              0%nat deedPdf "0") as [_ H].
  - split; [repeat constructor; simpl; try tauto; vm_compute; discriminate|].
    vm_compute. repeat constructor; simpl; intuition discriminate.
  - reflexivity.
  - reflexivity.
  - exact H.
Defined.

(* ================================================================== *)
(** ** Properties of the phone formatter *)

Lemma stripNonDigits_digitsOnly (s : string) :
  digitsOnly (Phone.stripNonDigits s) = true.
Proof.
  induction s as [|c r IH]; simpl; [reflexivity|].
  destruct (Phone.isDigit c) eqn:E; simpl; [rewrite E|]; exact IH.
Qed.

Lemma stripNonDigits_fixes_digits (s : string) :
  digitsOnly s = true -> Phone.stripNonDigits s = s.
Proof.
  induction s as [|c r IH]; simpl; [reflexivity|].
  intros H. apply andb_true_iff in H. destruct H as [Hc Hr].
  rewrite Hc, (IH Hr). reflexivity.
Qed.

Lemma substring_digitsOnly (n m : nat) (s : string) :
  digitsOnly s = true -> digitsOnly (substring n m s) = true.
Proof.
  revert n m. induction s as [|c r IH]; intros [|n] [|m] H; simpl;
    try reflexivity; simpl in H; apply andb_true_iff in H;
    destruct H as [Hc Hr].
  - rewrite Hc. simpl. apply IH. exact Hr.
  - apply IH. exact Hr.
  - apply IH. exact Hr.
Qed.

Lemma substring_length_le (n m : nat) (s : string) :
  (String.length (substring n m s) <= m)%nat.
Proof.
  revert n m. induction s as [|c r IH]; intros [|n] [|m]; simpl;
    try lia.
  - specialize (IH 0%nat m). lia.
  - apply (IH n 0%nat).
  - apply (IH n (S m)).
Qed.

Lemma substring_prefix_twice (m : nat) (s : string) :
  substring 0 m (substring 0 m s) = substring 0 m s.
Proof.
  revert m. induction s as [|c r IH]; intros [|m]; simpl;
    try reflexivity.
  f_equal. apply IH.
Qed.

Lemma formatted_digits (d : string) :
  digitsOnly d = true ->
  Phone.stripNonDigits
    (if (0 <? String.length d)%nat then
       if (String.length d <=? 3)%nat then "(" ++ d
       else if (String.length d <=? 6)%nat then
         "(" ++ Phone.slice 0 3 d ++ ") " ++ Phone.sliceFrom 3 d
       else
         "(" ++ Phone.slice 0 3 d ++ ") " ++ Phone.slice 3 6 d ++ "-"
         ++ Phone.slice 6 10 d
     else d)%string
  = substring 0 10 d.
Proof.
  intros H.
  destruct d as [|c1 [|c2 [|c3 [|c4 [|c5 [|c6 [|c7 r]]]]]]];
    simpl in H; split_digits H; phone_eval;
    rewrite ?D, ?D0, ?D1, ?D2, ?D3, ?D4, ?D5; try reflexivity.
  repeat f_equal.
  apply stripNonDigits_fixes_digits, substring_digitsOnly. exact H.
Qed.

(** X24.  The digits of the formatted phone number are the first ten digits
    of the input, in order: formatting drops every other character and
    everything after the tenth digit, and adds no digit. *)
Theorem phone_format_keeps_first_ten_digits (input : string) :
  Phone.stripNonDigits (Phone.formatPhoneNumber input)
  = substring 0 10 (Phone.stripNonDigits input).
Proof.
  unfold Phone.formatPhoneNumber. cbv zeta.
  apply formatted_digits, stripNonDigits_digitsOnly.
Qed.

Lemma format_reads_ten_characters (d : string) :
  (if (0 <? String.length (substring 0 10 d))%nat then
     if (String.length (substring 0 10 d) <=? 3)%nat
     then "(" ++ substring 0 10 d
     else if (String.length (substring 0 10 d) <=? 6)%nat then
       "(" ++ Phone.slice 0 3 (substring 0 10 d) ++ ") "
       ++ Phone.sliceFrom 3 (substring 0 10 d)
     else
       "(" ++ Phone.slice 0 3 (substring 0 10 d) ++ ") "
       ++ Phone.slice 3 6 (substring 0 10 d) ++ "-"
       ++ Phone.slice 6 10 (substring 0 10 d)
   else substring 0 10 d)%string
  = (if (0 <? String.length d)%nat then
       if (String.length d <=? 3)%nat then "(" ++ d
       else if (String.length d <=? 6)%nat then
         "(" ++ Phone.slice 0 3 d ++ ") " ++ Phone.sliceFrom 3 d
       else
         "(" ++ Phone.slice 0 3 d ++ ") " ++ Phone.slice 3 6 d ++ "-"
         ++ Phone.slice 6 10 d
     else d)%string.
Proof.
  destruct d as [|c1 [|c2 [|c3 [|c4 [|c5 [|c6 [|c7 r]]]]]]];
    try reflexivity.
  phone_eval. rewrite (substring_prefix_twice 3). reflexivity.
Qed.

(** X25.  Formatting a phone number that is already formatted changes
    nothing. *)
Theorem phone_format_idempotent (input : string) :
  Phone.formatPhoneNumber (Phone.formatPhoneNumber input)
  = Phone.formatPhoneNumber input.
Proof.
  unfold Phone.formatPhoneNumber at 1. cbv zeta.
  assert (E : Phone.stripNonDigits (Phone.formatPhoneNumber input)
              = substring 0 10 (Phone.stripNonDigits input)).
  { unfold Phone.formatPhoneNumber. cbv zeta.
    apply formatted_digits, stripNonDigits_digitsOnly. }
  rewrite E, format_reads_ten_characters. reflexivity.
Qed.

(** X26.  The formatted phone number has at most 14 characters, whatever
    the length of the input, and it is empty exactly when the input has no
    digit. *)
Theorem phone_format_is_short (input : string) :
  (String.length (Phone.formatPhoneNumber input) <= 14)%nat
  /\ (Phone.formatPhoneNumber input = ""%string
      <-> Phone.stripNonDigits input = ""%string).
Proof.
  unfold Phone.formatPhoneNumber. cbv zeta.
  destruct (Phone.stripNonDigits input)
    as [|c1 [|c2 [|c3 [|c4 [|c5 [|c6 [|c7 r]]]]]]];
    phone_eval; (split; [simpl; try lia|split; intros H; try discriminate H;
                                       try reflexivity]).
  pose proof (substring_length_le 0 3 r). lia.
Qed.
